(** * LuxeMatch (fashion-recommendation-web): the recommendation pipeline of
    [src/App.tsx], embedded as executable definitions.

    Conventions.
    - A JavaScript string is a [string]: a sequence of code units, here the
      code units below 256.
    - [undefined] and [null] are [None] where the code tests only for
      absence ([Product | undefined], [string | null]); the [recommendation]
      cell holds a JSON value, [JNull] for [null].
    - A [number] is an IEEE 754 binary64 value, Rocq's primitive [float].
    - React state setters are modelled as immediate updates of a state
      record; the [async] handler [handleStyleMe] is modelled by its two
      synchronous halves, the part before the [await] and the part after it,
      and the page by the events that run them.

    Layout: the definitions come first ([JSString], the catalog types,
    [Resolver], [JSON], [Serializer], [Pipeline], [Samples]), the properties
    after them. *)

From Stdlib Require Import List String Ascii Bool Arith Lia.
From Stdlib Require Import Floats.
Import ListNotations.

Local Open Scope list_scope.
Local Open Scope string_scope.

Set Warnings "-register-all".

(* ================================================================== *)
(** * Strings the way the code uses them *)
(* ================================================================== *)

Module JSString.

(** The line feed of ['\n'] and the double quote. *)
Definition LF : ascii := "010"%char.
Definition DQUOTE : ascii := "034"%char.

Definition nl : string := String LF EmptyString.
Definition dq : string := String DQUOTE EmptyString.

(** [WhiteSpace] and [LineTerminator] code points of ECMAScript that lie
    below 256: TAB, LF, VT, FF, CR, SP and NBSP.  These are the code units
    [String.prototype.trim] strips. *)
Definition isWhiteSpace (c : ascii) : bool :=
  let n := nat_of_ascii c in
  Nat.eqb n 9 || Nat.eqb n 10 || Nat.eqb n 11 || Nat.eqb n 12
  || Nat.eqb n 13 || Nat.eqb n 32 || Nat.eqb n 160.

Fixpoint trimStart (s : string) : string :=
  match s with
  | EmptyString => EmptyString
  | String c s' => if isWhiteSpace c then trimStart s' else s
  end.

(** [trimEnd] keeps a white-space code unit only when something that is
    kept follows it. *)
Fixpoint trimEnd (s : string) : string :=
  match s with
  | EmptyString => EmptyString
  | String c s' =>
      match trimEnd s' with
      | EmptyString => if isWhiteSpace c then EmptyString
                       else String c EmptyString
      | rest => String c rest
      end
  end.

(** [s.trim()] *)
Definition trim (s : string) : string := trimEnd (trimStart s).

(** Truthiness of a string: every string but [''] is truthy. *)
Definition truthy (s : string) : bool :=
  match s with EmptyString => false | _ => true end.

Fixpoint allWhiteSpace (s : string) : bool :=
  match s with
  | EmptyString => true
  | String c s' => isWhiteSpace c && allWhiteSpace s'
  end.

(** [parts.join(sep)] *)
Fixpoint join (sep : string) (parts : list string) : string :=
  match parts with
  | [] => EmptyString
  | [p] => p
  | p :: rest => p ++ sep ++ join sep rest
  end.

(** [s.split(c)] for a one-character separator: the empty string splits
    into one empty piece. *)
Fixpoint splitOn (c : ascii) (s : string) : list string :=
  match s with
  | EmptyString => [EmptyString]
  | String a s' =>
      if Ascii.eqb a c then EmptyString :: splitOn c s'
      else match splitOn c s' with
           | [] => [String a EmptyString]
           | piece :: pieces => String a piece :: pieces
           end
  end.

(** Whether the code unit [c] occurs in [s]. *)
Fixpoint occurs (c : ascii) (s : string) : bool :=
  match s with
  | EmptyString => false
  | String a s' => Ascii.eqb a c || occurs c s'
  end.

(** The lines of a text block: none for the empty block, otherwise the
    pieces between line feeds. *)
Definition lines (s : string) : list string :=
  match s with
  | EmptyString => []
  | _ => splitOn LF s
  end.

End JSString.

(* ================================================================== *)
(** * The catalog ([src/types]: [Product]) *)
(* ================================================================== *)

Definition number := float.

Record Product := mkProduct {
ProductID : string;
ProductName : string;
ProductBrand : string;
Gender : string;
Price : number;
NumImages : number;
Description : string;
PrimaryColor : string
}.

(** [products], imported from [./data]: an array of [Product]. *)
Definition Catalog := list Product.

(** [interface RecommendationIds] *)
Record RecommendationIds := mkRecommendationIds {
top_id : string;
bottom_id : string;
footwear_id : string;
accessory_id : string;
style_tags : list string;
color_palette : list string;
reasoning : string;
occasion_title : string
}.

(** [interface OutfitSelection] *)
Record OutfitSelection := mkOutfit {
top : option Product;
bottom : option Product;
footwear : option Product;
accessory : option Product
}.

(* ================================================================== *)
(** * Identifier resolution ([getProduct]) and the outfit grid *)
(* ================================================================== *)

Module Resolver.

(** [String(id)] on a value that is already a string. *)
Definition JS_String (id : string) : string := id.

(** [products.find(pred)]: the first element that satisfies [pred]. *)
Definition find_ (pred : Product -> bool) (products : Catalog)
  : option Product := List.find pred products.

(** [getProduct]:
    [if (id === 'NONE') return undefined;
     return products.find(p => p.ProductID === id
                            || p.ProductID === String(id));] *)
Definition getProduct (products : Catalog) (id : string) : option Product :=
  if String.eqb id "NONE" then None
  else find_ (fun p => String.eqb (ProductID p) id
                       || String.eqb (ProductID p) (JS_String id))
             products.

(** What a [ProductCard] shows: the dashed placeholder with its caption,
    or the card of a product (category, brand, name, colour, price). *)
Inductive CardView :=
| Placeholder (caption : string)
| Card (category brand name color : string) (price : number).

(** [ProductCard({ product, category })] *)
Definition ProductCard (product : option Product) (category : string)
  : CardView :=
  match product with
  | None => Placeholder ("No " ++ category ++ " selected")
  | Some p => Card category (ProductBrand p) (ProductName p)
                   (PrimaryColor p) (Price p)
  end.

(** The four [product] props of the outfit grid. *)
Definition outfitSlots (products : Catalog) (recommendation : RecommendationIds)
  : OutfitSelection :=
  {| top := getProduct products (top_id recommendation);
     bottom := getProduct products (bottom_id recommendation);
     footwear := getProduct products (footwear_id recommendation);
     accessory := getProduct products (accessory_id recommendation) |}.

(** The outfit grid: four cards, in this order. *)
Definition outfitGrid (products : Catalog) (recommendation : RecommendationIds)
  : list CardView :=
  [ ProductCard (getProduct products (top_id recommendation)) "Top";
    ProductCard (getProduct products (bottom_id recommendation)) "Bottom";
    ProductCard (getProduct products (footwear_id recommendation)) "Footwear";
    ProductCard (getProduct products (accessory_id recommendation)) "Accessory" ].

End Resolver.

(* ================================================================== *)
(** * JSON values: what [JSON.parse] hands to the code *)
(* ================================================================== *)

Module JSON.

Inductive JSValue :=
| JNull
| JBool (b : bool)
| JNumber (n : number)
| JString (s : string)
| JArray (items : list JSValue)
| JObject (fields : list (string * JSValue)).

(** [obj[key]] on the own properties of an object; [None] is [undefined]. *)
Fixpoint getField (fields : list (string * JSValue)) (key : string)
  : option JSValue :=
  match fields with
  | [] => None
  | (k, v) :: rest => if String.eqb k key then Some v else getField rest key
  end.

(** [obj[key] = v]: an existing property keeps its place and takes the new
    value, a new one goes last. *)
Fixpoint setField (fields : list (string * JSValue)) (key : string)
  (v : JSValue) : list (string * JSValue) :=
  match fields with
  | [] => [(key, v)]
  | (k, old) :: rest =>
      if String.eqb k key then (k, v) :: rest
      else (k, old) :: setField rest key v
  end.

(** Truthiness, as in [recommendation && (...)]. *)
Definition truthy (v : JSValue) : bool :=
  match v with
  | JNull => false
  | JBool b => b
  | JNumber n => negb (PrimFloat.eqb n 0%float || PrimFloat.is_nan n)
  | JString s => JSString.truthy s
  | JArray _ => true
  | JObject _ => true
  end.

Definition asString (v : JSValue) : option string :=
  match v with JString s => Some s | _ => None end.

Fixpoint asStrings (items : list JSValue) : option (list string) :=
  match items with
  | [] => Some []
  | v :: rest =>
      match asString v, asStrings rest with
      | Some s, Some ss => Some (s :: ss)
      | _, _ => None
      end
  end.

Definition asStringArray (v : JSValue) : option (list string) :=
  match v with JArray items => asStrings items | _ => None end.

Definition stringField (fields : list (string * JSValue)) (key : string)
  : option string :=
  match getField fields key with Some v => asString v | None => None end.

Definition stringArrayField (fields : list (string * JSValue)) (key : string)
  : option (list string) :=
  match getField fields key with Some v => asStringArray v | None => None end.

(** The typed reading of a value as [interface RecommendationIds]: an object
    whose eight properties are present with the declared types (four
    strings, two arrays of strings, two strings).  [None] when the value does
    not have that structure.  The code itself never performs this check: it
    casts with [as RecommendationIds]. *)
Definition readRecommendationIds (v : JSValue) : option RecommendationIds :=
  match v with
  | JObject fs =>
      match stringField fs "top_id", stringField fs "bottom_id",
            stringField fs "footwear_id", stringField fs "accessory_id",
            stringArrayField fs "style_tags",
            stringArrayField fs "color_palette",
            stringField fs "reasoning", stringField fs "occasion_title" with
      | Some t, Some b, Some f, Some a, Some tags, Some pal, Some r, Some o =>
          Some (mkRecommendationIds t b f a tags pal r o)
      | _, _, _, _, _, _, _, _ => None
      end
  | _ => None
  end.

Definition matchesSchema (v : JSValue) : bool :=
  match readRecommendationIds v with Some _ => true | None => false end.

(** ** A reader for a fragment of JSON

    [JSON.parse] is a built-in; the pipeline below takes it as a parameter.
    [parseFragment] reads the JSON texts made of objects, arrays, strings
    with the two-character escapes, [true], [false] and [null]; it is the
    instance used on concrete response texts.  Number literals and
    the four-digit unicode escapes are outside the fragment and are
    refused. *)

Definition isJsonSpace (c : ascii) : bool :=
  let n := nat_of_ascii c in
  Nat.eqb n 32 || Nat.eqb n 9 || Nat.eqb n 10 || Nat.eqb n 13.

Fixpoint skipSpace (s : string) : string :=
  match s with
  | String c s' => if isJsonSpace c then skipSpace s' else s
  | EmptyString => EmptyString
  end.

(** [expect word s]: [s] without its prefix [word]. *)
Fixpoint expect (word s : string) : option string :=
  match word, s with
  | EmptyString, _ => Some s
  | String a word', String b s' =>
      if Ascii.eqb a b then expect word' s' else None
  | String _ _, EmptyString => None
  end.

Definition unescape (c : ascii) : option ascii :=
  let n := nat_of_ascii c in
  if Nat.eqb n 34 then Some c                 (* quote *)
  else if Nat.eqb n 92 then Some c            (* backslash *)
  else if Nat.eqb n 47 then Some c            (* slash *)
  else if Nat.eqb n 98 then Some "008"%char   (* b: backspace *)
  else if Nat.eqb n 102 then Some "012"%char  (* f: form feed *)
  else if Nat.eqb n 110 then Some "010"%char  (* n: line feed *)
  else if Nat.eqb n 114 then Some "013"%char  (* r: carriage return *)
  else if Nat.eqb n 116 then Some "009"%char  (* t: tab *)
  else None.

(** The characters of a string literal after its opening quote, up to the
    closing quote; control characters are not allowed unescaped. *)
Fixpoint readChars (s : string) : option (string * string) :=
  match s with
  | EmptyString => None
  | String c s' =>
      let n := nat_of_ascii c in
      if Nat.eqb n 34 then Some (EmptyString, s')
      else if Nat.ltb n 32 then None
      else if Nat.eqb n 92 then
        match s' with
        | String e s'' =>
            match unescape e, readChars s'' with
            | Some c', Some (body, rest) => Some (String c' body, rest)
            | _, _ => None
            end
        | EmptyString => None
        end
      else
        match readChars s' with
        | Some (body, rest) => Some (String c body, rest)
        | None => None
        end
  end.

Definition buildObject (members : list (string * JSValue))
  : list (string * JSValue) :=
  fold_left (fun fields kv => setField fields (fst kv) (snd kv)) members [].

Fixpoint readValue (fuel : nat) (s : string) {struct fuel}
  : option (JSValue * string) :=
  match fuel with
  | O => None
  | S fuel' =>
      match skipSpace s with
      | String c rest =>
          let n := nat_of_ascii c in
          if Nat.eqb n 34 then
            match readChars rest with
            | Some (body, rest') => Some (JString body, rest')
            | None => None
            end
          else if Nat.eqb n 91 then          (* [ *)
            match skipSpace rest with
            | String "]" rest' => Some (JArray [], rest')
            | _ =>
                match readElements fuel' rest with
                | Some (items, rest') => Some (JArray items, rest')
                | None => None
                end
            end
          else if Nat.eqb n 123 then         (* { *)
            match skipSpace rest with
            | String "}" rest' => Some (JObject [], rest')
            | _ =>
                match readMembers fuel' rest with
                | Some (members, rest') =>
                    Some (JObject (buildObject members), rest')
                | None => None
                end
            end
          else if Nat.eqb n 116 then         (* true *)
            option_map (fun r => (JBool true, r)) (expect "rue" rest)
          else if Nat.eqb n 102 then         (* false *)
            option_map (fun r => (JBool false, r)) (expect "alse" rest)
          else if Nat.eqb n 110 then         (* null *)
            option_map (fun r => (JNull, r)) (expect "ull" rest)
          else None
      | EmptyString => None
      end
  end

with readElements (fuel : nat) (s : string) {struct fuel}
  : option (list JSValue * string) :=
  match fuel with
  | O => None
  | S fuel' =>
      match readValue fuel' s with
      | Some (v, rest) =>
          match skipSpace rest with
          | String "]" rest' => Some ([v], rest')
          | String "," rest' =>
              match readElements fuel' rest' with
              | Some (vs, rest'') => Some (v :: vs, rest'')
              | None => None
              end
          | _ => None
          end
      | None => None
      end
  end

with readMembers (fuel : nat) (s : string) {struct fuel}
  : option (list (string * JSValue) * string) :=
  match fuel with
  | O => None
  | S fuel' =>
      match skipSpace s with
      | String c rest =>
          if Nat.eqb (nat_of_ascii c) 34 then
            match readChars rest with
            | Some (key, rest1) =>
                match skipSpace rest1 with
                | String ":" rest2 =>
                    match readValue fuel' rest2 with
                    | Some (v, rest3) =>
                        match skipSpace rest3 with
                        | String "}" rest4 => Some ([(key, v)], rest4)
                        | String "," rest4 =>
                            match readMembers fuel' rest4 with
                            | Some (kvs, rest5) => Some ((key, v) :: kvs, rest5)
                            | None => None
                            end
                        | _ => None
                        end
                    | None => None
                    end
                | _ => None
                end
            | None => None
            end
          else None
      | EmptyString => None
      end
  end.

(** The whole text must be one value, white space around it allowed. *)
Definition parseFragment (text : string) : option JSValue :=
  match readValue (2 * String.length text + 2) text with
  | Some (v, rest) =>
      match skipSpace rest with
      | EmptyString => Some v
      | _ => None
      end
  | None => None
  end.

(** ** Writing JSON text, for the concrete response texts *)

Definition quoted (s : string) : string := JSString.dq ++ s ++ JSString.dq.

(** A member whose value is a string. *)
Definition stringMember (key value : string) : string :=
  quoted key ++ ":" ++ quoted value.

(** A member whose value is an array of strings. *)
Definition arrayMember (key : string) (values : list string) : string :=
  quoted key ++ ":[" ++ JSString.join "," (map quoted values) ++ "]".

Definition objectText (members : list string) : string :=
  "{" ++ JSString.join "," members ++ "}".

End JSON.

(* ================================================================== *)
(** * The inventory context and the request ([handleStyleMe], lines 39-77) *)
(* ================================================================== *)

Module Serializer.

(** The template of one catalog entry:
    [`ID: ${p.ProductID}, Name: ${p.ProductName}, Brand: ${p.ProductBrand},
      Color: ${p.PrimaryColor}, Desc: ${p.Description}`] *)
Definition inventoryLine (p : Product) : string :=
  "ID: " ++ ProductID p ++ ", Name: " ++ ProductName p
  ++ ", Brand: " ++ ProductBrand p ++ ", Color: " ++ PrimaryColor p
  ++ ", Desc: " ++ Description p.

(** [products.map(p => ...).join('\n')] *)
Definition inventoryContext (products : Catalog) : string :=
  JSString.join JSString.nl (map inventoryLine products).

(** The five strings a catalog entry contributes to its line. *)
Definition serializedFields (p : Product) : list string :=
  [ProductID p; ProductName p; ProductBrand p; PrimaryColor p; Description p].

(** No serialized field of [p] contains a line feed. *)
Definition singleLine (p : Product) : bool :=
  forallb (fun field => negb (JSString.occurs JSString.LF field))
          (serializedFields p).

(** [needle] occurs in [text] as a contiguous piece. *)
Definition contains (text needle : string) : Prop :=
  exists before after, text = before ++ needle ++ after.

(** The prompt template, line by line. *)
Definition prompt (query inventoryContext : string) : string :=
  JSString.join JSString.nl
    [ "";
      "        You are LuxeMatch, an elite high-fashion AI stylist. ";
      "        ";
      "        The user needs an outfit for: "
        ++ JSString.dq ++ query ++ JSString.dq ++ ".";
      "        ";
      "        Select the best matching items from the provided INVENTORY list below to create a complete, stylish outfit.";
      "        You MUST pick exactly one 'top' (shirt/t-shirt/kurta/dress), one 'bottom' (jeans/trousers/skirt/shorts/leggings), one 'footwear', and one 'accessory' (watch/bag/jewellery/belt) from the inventory.";
      "        If the user selects a dress or jumpsuit (which covers both top and bottom), set the 'bottom_id' to "
        ++ JSString.dq ++ "NONE" ++ JSString.dq
        ++ " or select a complementary legging if appropriate.";
      "        ";
      "        INVENTORY:";
      "        " ++ inventoryContext;
      "";
      "        Return a JSON object. Do not include markdown code blocks.";
      "      " ].

(** The types of a response schema ([Type.STRING], [Type.ARRAY],
    [Type.OBJECT]). *)
Inductive SchemaType :=
| STRING
| ARRAY (items : SchemaType)
| OBJECT (properties : list (string * SchemaType)).

Definition responseSchema : SchemaType :=
  OBJECT [ ("top_id", STRING); ("bottom_id", STRING);
           ("footwear_id", STRING); ("accessory_id", STRING);
           ("style_tags", ARRAY STRING); ("color_palette", ARRAY STRING);
           ("reasoning", STRING); ("occasion_title", STRING) ].

(** The argument of [ai.models.generateContent]. *)
Record Request := mkRequest {
  model : string;
  contents : string;
  responseMimeType : string;
  schema : SchemaType
}.

Definition makeRequest (products : Catalog) (query : string) : Request :=
  {| model := "gemini-2.5-flash";
     contents := prompt query (inventoryContext products);
     responseMimeType := "application/json";
     schema := responseSchema |}.

End Serializer.

(* ================================================================== *)
(** * The component state and [handleStyleMe] *)
(* ================================================================== *)

Module Pipeline.

Import JSON.

(** The four [useState] cells of [App]. *)
Record AppState := mkAppState {
  query : string;
  loading : bool;
  recommendation : JSValue;   (* [JNull] is [null] *)
  error : option string
}.

Definition initialState : AppState :=
  {| query := ""; loading := false; recommendation := JNull; error := None |}.

Definition setQuery (v : string) (st : AppState) : AppState :=
  {| query := v; loading := loading st;
     recommendation := recommendation st; error := error st |}.

Definition setLoading (v : bool) (st : AppState) : AppState :=
  {| query := query st; loading := v;
     recommendation := recommendation st; error := error st |}.

Definition setRecommendation (v : JSValue) (st : AppState) : AppState :=
  {| query := query st; loading := loading st;
     recommendation := v; error := error st |}.

Definition setError (v : option string) (st : AppState) : AppState :=
  {| query := query st; loading := loading st;
     recommendation := recommendation st; error := v |}.

(** The component together with the generation capability: every request
    ever handed to [generateContent], oldest first, and how many of them
    have not completed yet. *)
Record World := mkWorld {
  app : AppState;
  sent : list Serializer.Request;
  inflight : nat
}.

Definition initialWorld : World :=
  {| app := initialState; sent := []; inflight := 0 |}.

(** How the awaited [generateContent] call completes: the promise rejects
    (capability unreachable, rate limit, any provider error), or it resolves
    with a response whose [text] is [undefined] or a string. *)
Inductive Completion :=
| Rejects
| Resolves (text : option string).

Definition aiErrorMessage : string :=
  "Our stylists are currently busy (AI Error). Please try again.".

(** What a block of the [try] does: it runs to its end, or it throws. *)
Inductive Outcome :=
| Normal (st : AppState)
| Thrown (st : AppState).

Section WithEnvironment.

(** [products] of [./data] and the built-in [JSON.parse] ([None]: it throws
    a [SyntaxError]). *)
Variable products : Catalog.
Variable JSON_parse : string -> option JSValue.

(** [handleStyleMe] up to the [await].  Building the client
    ([new GoogleGenAI(...)]) and the prompt is taken to succeed, so that the
    call is made:
    [if (!query.trim()) return;
     setLoading(true); setError(null); setRecommendation(null);
     ... await ai.models.generateContent({...})] *)
Definition handleStyleMe_begin (w : World) : World :=
  let st := app w in
  if negb (JSString.truthy (JSString.trim (query st))) then w
  else
    let st1 := setLoading true st in
    let st2 := setError None st1 in
    let st3 := setRecommendation JNull st2 in
    {| app := st3;
       sent := sent w ++ [Serializer.makeRequest products (query st)];
       inflight := S (inflight w) |}.

(** The rest of the [try] block, once the awaited call has completed; a
    [text] that is [undefined] or [''] is falsy:
    [if (response.text) {
       const data = JSON.parse(response.text) as RecommendationIds;
       setRecommendation(data); ... }] *)
Definition afterAwait (c : Completion) (st : AppState) : Outcome :=
  match c with
  | Rejects => Thrown st
  | Resolves text =>
      match text with
      | Some t =>
          if JSString.truthy t then
            match JSON_parse t with
            | Some data => Normal (setRecommendation data st)
            | None => Thrown st
            end
          else Normal st
      | None => Normal st
      end
  end.

(** [catch (err) { setError("...") } finally { setLoading(false) }] *)
Definition handleStyleMe_resume (c : Completion) (st : AppState) : AppState :=
  let st1 := match afterAwait c st with
             | Normal st' => st'
             | Thrown st' => setError (Some aiErrorMessage) st'
             end in
  setLoading false st1.

(** What can happen to the page. *)
Inductive Event :=
| Change (value : string)       (* [onChange] of the input *)
| Click                         (* a click on the "Style Me" button *)
| KeyDown (key : string)        (* [onKeyDown] of the input *)
| Settle (c : Completion).      (* an outstanding request completes *)

(** [disabled={loading || !query}] *)
Definition buttonDisabled (st : AppState) : bool :=
  loading st || negb (JSString.truthy (query st)).

(** One event.  A disabled button dispatches no click.  The key handler is
    [e.key === 'Enter' && handleStyleMe()]. *)
Definition step (w : World) (e : Event) : World :=
  match e with
  | Change v =>
      {| app := setQuery v (app w); sent := sent w; inflight := inflight w |}
  | Click =>
      if buttonDisabled (app w) then w else handleStyleMe_begin w
  | KeyDown key =>
      if String.eqb key "Enter" then handleStyleMe_begin w else w
  | Settle c =>
      match inflight w with
      | O => w
      | S n =>
          {| app := handleStyleMe_resume c (app w);
             sent := sent w; inflight := n |}
      end
  end.

Definition run (w : World) (events : list Event) : World :=
  fold_left step events w.

(** One invocation that nothing interleaves with: the handler starts, and
    if it issued a request the request completes with [c]. *)
Definition invoke (c : Completion) (w : World) : World :=
  let w1 := handleStyleMe_begin w in
  if Nat.eqb (inflight w1) (inflight w) then w1
  else step w1 (Settle c).

End WithEnvironment.

(** The error banner and the results section are what the user sees of
    [error] and [recommendation]: [{error && ...}],
    [{recommendation && ...}]. *)
Definition errorShown (st : AppState) : bool :=
  match error st with
  | Some msg => JSString.truthy msg
  | None => false
  end.

Definition recommendationShown (st : AppState) : bool :=
  JSON.truthy (recommendation st).

(** The error state and the recommendation are not both set. *)
Definition exclusiveb (st : AppState) : bool :=
  match error st, recommendation st with
  | None, _ => true
  | Some _, JNull => true
  | Some _, _ => false
  end.

Definition exclusive (st : AppState) : Prop := exclusiveb st = true.

(** The events that reach [handleStyleMe] through the key handler. *)
Definition startsByKey (e : Event) : bool :=
  match e with
  | KeyDown key => String.eqb key "Enter"
  | _ => false
  end.

(** At most one request is outstanding, [loading] says whether one is, and
    while one is the error state and the recommendation are both cleared. *)
Definition singleFlight (w : World) : Prop :=
  (inflight w = 0 /\ loading (app w) = false /\ exclusive (app w))
  \/ (inflight w = 1 /\ loading (app w) = true
      /\ error (app w) = None /\ recommendation (app w) = JNull).

End Pipeline.

(* ================================================================== *)
(** * Concrete catalogs, responses and event traces *)
(* ================================================================== *)

Module Samples.

Import JSON.

Definition productA1 : Product :=
  mkProduct "A1" "Linen Shirt" "Roadster" "Men" 1299%float 5%float
            "Breathable linen shirt" "White".

Definition productB2 : Product :=
  mkProduct "B2" "Slim Jeans" "Levis" "Men" 2499%float 4%float
            "Slim fit denim" "Blue".

Definition productC3 : Product :=
  mkProduct "C3" "Leather Loafers" "Clarks" "Men" 3999%float 6%float
            "Tan leather loafers" "Tan".

Definition productD4 : Product :=
  mkProduct "D4" "Steel Watch" "Titan" "Men" 5499%float 3%float
            "Analog steel watch" "Silver".

(** The catalog of the spec's worked example. *)
Definition catalog : Catalog := [productA1; productB2; productC3; productD4].

(** A product whose identifier is the string the resolver reserves. *)
Definition productNONE : Product :=
  mkProduct "NONE" "Canvas Sneakers" "Puma" "Unisex" 1999%float 4%float
            "Low-top canvas sneakers" "Black".

Definition catalogWithNONE : Catalog :=
  [productA1; productB2; productNONE; productD4].

(** A product whose identifier is the reserved string in lower case. *)
Definition productLowerNone : Product :=
  mkProduct "none" "Ankle Leggings" "Jockey" "Women" 799%float 2%float
            "Stretch cotton leggings" "Black".

Definition catalogWithLowerNone : Catalog := [productA1; productLowerNone].

(** A product whose description runs over two lines. *)
Definition productTwoLines : Product :=
  mkProduct "E5" "Silk Scarf" "Fabindia" "Women" 899%float 2%float
            ("Hand-printed silk" ++ JSString.nl ++ "Dry clean only") "Red".

Definition catalogTwoLines : Catalog := [productTwoLines].

(** The raw response of the spec's worked example. *)
Definition exampleIds : RecommendationIds :=
  mkRecommendationIds "A1" "NONE" "C3" "D4" ["chic"] ["black"] "x" "Y".

(** A response whose [top_id] names no product of [catalog]. *)
Definition unknownTopIds : RecommendationIds :=
  mkRecommendationIds "X9" "B2" "C3" "D4" ["chic"] ["black"] "x" "Y".

(** A response whose [top_id] names no product and whose [footwear_id] is
    the identifier of [productNONE]. *)
Definition footwearNONEIds : RecommendationIds :=
  mkRecommendationIds "X9" "B2" "NONE" "D4" ["chic"] ["black"] "x" "Y".

(** A well-formed response text. *)
Definition goodText : string :=
  objectText
    [ stringMember "top_id" "A1"; stringMember "bottom_id" "NONE";
      stringMember "footwear_id" "C3"; stringMember "accessory_id" "D4";
      arrayMember "style_tags" ["chic"];
      arrayMember "color_palette" ["black"];
      stringMember "reasoning" "x"; stringMember "occasion_title" "Y" ].

(** The same response with [style_tags] a single string, not an array. *)
Definition badShapeText : string :=
  objectText
    [ stringMember "top_id" "A1"; stringMember "bottom_id" "NONE";
      stringMember "footwear_id" "C3"; stringMember "accessory_id" "D4";
      stringMember "style_tags" "chic";
      arrayMember "color_palette" ["black"];
      stringMember "reasoning" "x"; stringMember "occasion_title" "Y" ].

Definition badShapeValue : JSValue :=
  JObject
    [ ("top_id", JString "A1"); ("bottom_id", JString "NONE");
      ("footwear_id", JString "C3"); ("accessory_id", JString "D4");
      ("style_tags", JString "chic");
      ("color_palette", JArray [JString "black"]);
      ("reasoning", JString "x"); ("occasion_title", JString "Y") ].

Definition goodValue : JSValue :=
  JObject
    [ ("top_id", JString "A1"); ("bottom_id", JString "NONE");
      ("footwear_id", JString "C3"); ("accessory_id", JString "D4");
      ("style_tags", JArray [JString "chic"]);
      ("color_palette", JArray [JString "black"]);
      ("reasoning", JString "x"); ("occasion_title", JString "Y") ].

(** A response text that is not JSON. *)
Definition brokenText : string := "Sorry, I cannot help with that.".

(** The page over [catalog], with the fragment reader for [JSON.parse]. *)
Definition step : Pipeline.World -> Pipeline.Event -> Pipeline.World :=
  Pipeline.step catalog parseFragment.

Definition run : Pipeline.World -> list Pipeline.Event -> Pipeline.World :=
  Pipeline.run catalog parseFragment.

(** The world after the user has typed a query. *)
Definition typed (q : string) : Pipeline.World :=
  step Pipeline.initialWorld (Pipeline.Change q).

(** The world while a request for "garden party" is outstanding. *)
Definition busy : Pipeline.World :=
  run Pipeline.initialWorld
      [Pipeline.Change "garden party"; Pipeline.KeyDown "Enter"].

(** The user types a query and presses Enter twice before any answer. *)
Definition doubleEnter : list Pipeline.Event :=
  [ Pipeline.Change "garden party";
    Pipeline.KeyDown "Enter"; Pipeline.KeyDown "Enter" ].

(** After that, the first request is answered and the second one fails. *)
Definition answerThenFailure : list Pipeline.Event :=
  (doubleEnter ++
   [ Pipeline.Settle (Pipeline.Resolves (Some goodText));
     Pipeline.Settle Pipeline.Rejects ])%list.

(** Or the first request fails and the second one is answered. *)
Definition failureThenAnswer : list Pipeline.Event :=
  (doubleEnter ++
   [ Pipeline.Settle Pipeline.Rejects;
     Pipeline.Settle (Pipeline.Resolves (Some goodText)) ])%list.

End Samples.

(* ================================================================== *)
(** * What the page shows (the JSX of [App], lines 145-224) *)
(* ================================================================== *)

Module View.

Import JSON.

(** [toLowerCase] on one code unit below 256: the letters A-Z and the
    Latin-1 capitals (192-214, 216-222) move up by 32. *)
Definition toLowerUnit (c : ascii) : ascii :=
  let n := nat_of_ascii c in
  if (Nat.leb 65 n && Nat.leb n 90)
     || (Nat.leb 192 n && Nat.leb n 214)
     || (Nat.leb 216 n && Nat.leb n 222)
  then ascii_of_nat (n + 32)
  else c.

(** [s.toLowerCase()] *)
Fixpoint toLowerCase (s : string) : string :=
  match s with
  | EmptyString => EmptyString
  | String c s' => String (toLowerUnit c) (toLowerCase s')
  end.

(** [s.startsWith(piece)] *)
Fixpoint startsWith (s piece : string) : bool :=
  match piece, s with
  | EmptyString, _ => true
  | String _ _, EmptyString => false
  | String a piece', String b s' => Ascii.eqb a b && startsWith s' piece'
  end.

(** [s.includes(piece)] *)
Fixpoint includes (s piece : string) : bool :=
  startsWith s piece
  || match s with
     | EmptyString => false
     | String _ s' => includes s' piece
     end.

(** The background of a palette swatch:
    [color.toLowerCase().includes('gold') ? '#FFD700' : color] *)
Definition swatchColor (color : string) : string :=
  if includes (toLowerCase color) "gold" then "#FFD700" else color.

(** One entry of the colour palette: the painted circle and its label. *)
Record Swatch := mkSwatch {
  backgroundColor : string;
  label : string
}.

(** The results section: the title, one chip per style tag, the outfit
    grid, the stylist's note between double quotes, one swatch per colour. *)
Record ResultsView := mkResultsView {
  title : string;
  tagChips : list string;
  cards : list Resolver.CardView;
  stylistNote : string;
  swatches : list Swatch
}.

Definition resultsSection (products : Catalog)
  (recommendation : RecommendationIds) : ResultsView :=
  {| title := occasion_title recommendation;
     tagChips := style_tags recommendation;
     cards := Resolver.outfitGrid products recommendation;
     stylistNote := JSString.dq ++ reasoning recommendation ++ JSString.dq;
     swatches := map (fun color => mkSwatch (swatchColor color) color)
                     (color_palette recommendation) |}.

(** The parts of the page that depend on the state: the button
    ([disabled], spinner or label), the error banner, the results. *)
Record PageView := mkPageView {
  buttonOff : bool;
  spinner : bool;
  banner : option string;
  results : option ResultsView
}.

(** [{error && (<div>{error}</div>)}] *)
Definition errorBanner (st : Pipeline.AppState) : option string :=
  match Pipeline.error st with
  | Some msg => if JSString.truthy msg then Some msg else None
  | None => None
  end.

(** The page for a state whose [recommendation] is [null] or has the
    structure of [RecommendationIds]; the rendering of any other value is
    not modelled ([None]). *)
Definition view (products : Catalog) (st : Pipeline.AppState)
  : option PageView :=
  let page := mkPageView (Pipeline.buttonDisabled st) (Pipeline.loading st)
                         (errorBanner st) in
  match Pipeline.recommendation st with
  | JNull => Some (page None)
  | v =>
      match readRecommendationIds v with
      | Some r => Some (page (Some (resultsSection products r)))
      | None => None
      end
  end.

End View.

(* ================================================================== *)
(** * Measures and trace conditions used by the properties *)
(* ================================================================== *)

Module Measures.

(** How often the code unit [c] occurs in [s]. *)
Fixpoint countUnit (c : ascii) (s : string) : nat :=
  match s with
  | EmptyString => 0
  | String a s' => (if Ascii.eqb a c then 1 else 0) + countUnit c s'
  end.

(** The line feeds in the serialized fields of a product. *)
Definition lineFeeds (p : Product) : nat :=
  list_sum (map (countUnit JSString.LF) (Serializer.serializedFields p)).

(** The card shown for one slot: the placeholder that names the category,
    or the card of a catalog product with the identifier asked for. *)
Definition cardFor (products : Catalog) (id category : string)
  (card : Resolver.CardView) : Prop :=
  (Resolver.getProduct products id = None
   /\ card = Resolver.Placeholder ("No " ++ category ++ " selected"))
  \/ (exists p, In p products /\ ProductID p = id
                /\ card = Resolver.Card category (ProductBrand p)
                            (ProductName p) (PrimaryColor p) (Price p)).

(** A request [handleStyleMe] builds for a query that is not blank. *)
Definition builtFrom (products : Catalog) (r : Serializer.Request) : Prop :=
  exists q, JSString.allWhiteSpace q = false
            /\ r = Serializer.makeRequest products q.

(** The Enter key is pressed only while no request is outstanding
    ([loading] is false), all along the trace. *)
Fixpoint enterOnlyWhenIdle (products : Catalog)
  (JSON_parse : string -> option JSON.JSValue)
  (w : Pipeline.World) (events : list Pipeline.Event) : bool :=
  match events with
  | [] => true
  | e :: rest =>
      (negb (Pipeline.startsByKey e) || negb (Pipeline.loading (Pipeline.app w)))
      && enterOnlyWhenIdle products JSON_parse
           (Pipeline.step products JSON_parse w e) rest
  end.

End Measures.

Module Scenarios.

(** A well-behaved session: a request by the Enter key, a click while it is
    outstanding, its answer, a second request that fails. *)
Definition calmSession : list Pipeline.Event :=
  [ Pipeline.Change "garden party"; Pipeline.KeyDown "Enter"; Pipeline.Click;
    Pipeline.Settle (Pipeline.Resolves (Some Samples.goodText));
    Pipeline.Change "beach wedding"; Pipeline.KeyDown "Enter";
    Pipeline.Settle Pipeline.Rejects ].

(** Two requests outstanding. *)
Definition twoInFlight : Pipeline.World :=
  Samples.run Pipeline.initialWorld Samples.doubleEnter.

(** A catalog in which two products carry the identifier ["B2"]. *)
Definition productB2bis : Product :=
  mkProduct "B2" "Chino Shorts" "Gap" "Men" 1499%float 3%float
            "Cotton chino shorts" "Khaki".

End Scenarios.

(* ================================================================== *)
(** * Identifier resolution: properties of [getProduct] *)
(* ================================================================== *)

(** Every product of a concrete catalog satisfies the goal. *)
Ltac each_product :=
  simpl; intros ? Hin;
  repeat (destruct Hin as [<- | Hin]; [try discriminate |]);
  try contradiction.

(** The identifiers of a concrete catalog are pairwise different. *)
Ltac distinct_ids :=
  simpl; repeat constructor; simpl; intuition discriminate.

Section ResolverFacts.

Import Resolver.

Variable products : Catalog.

(** The predicate handed to [find] tests exactly [p.ProductID === id]. *)
Lemma matches_id_spec (id : string) (p : Product) :
  (String.eqb (ProductID p) id || String.eqb (ProductID p) (JS_String id))
  = String.eqb (ProductID p) id.
Proof. unfold JS_String. apply orb_diag. Qed.

Lemma getProduct_sentinel : getProduct products "NONE" = None.
Proof. reflexivity. Qed.

Lemma getProduct_ordinary (id : string) :
  id <> "NONE" ->
  getProduct products id
  = find (fun p => String.eqb (ProductID p) id) products.
Proof.
  intros Hid. unfold getProduct, find_.
  destruct (String.eqb_spec id "NONE") as [E | _]; [contradiction |].
  induction products as [| p ps IH]; simpl; [reflexivity |].
  rewrite matches_id_spec, IH. reflexivity.
Qed.

(** An identifier that no catalog entry carries resolves to nothing, the
    sentinel included. *)
Lemma getProduct_absent (id : string) :
  (forall p, In p products -> ProductID p <> id) ->
  getProduct products id = None.
Proof.
  intros Hnone. unfold getProduct, find_.
  destruct (String.eqb id "NONE"); [reflexivity |].
  induction products as [| p ps IH]; simpl; [reflexivity |].
  rewrite matches_id_spec.
  destruct (String.eqb_spec (ProductID p) id) as [E | _].
  - exfalso. apply (Hnone p); [left; reflexivity | exact E].
  - apply IH. intros q Hq. apply Hnone. right. exact Hq.
Qed.

(** Whatever [getProduct] returns is a catalog entry with the identifier
    asked for. *)
Lemma getProduct_sound (id : string) (p : Product) :
  getProduct products id = Some p -> In p products /\ ProductID p = id.
Proof.
  unfold getProduct, find_.
  destruct (String.eqb id "NONE"); [discriminate |].
  intros Hfind. apply find_some in Hfind. destruct Hfind as [Hin Hp].
  rewrite matches_id_spec in Hp. split; [exact Hin |].
  apply String.eqb_eq. exact Hp.
Qed.

(** An identifier other than the sentinel that some entry carries resolves
    to an entry. *)
Lemma getProduct_found (id : string) (P : Product) :
  id <> "NONE" -> In P products -> ProductID P = id ->
  exists p, getProduct products id = Some p.
Proof.
  intros Hid Hin HP. rewrite (getProduct_ordinary _ Hid).
  destruct (find (fun p => String.eqb (ProductID p) id) products) as [p |] eqn:E.
  - exists p. reflexivity.
  - exfalso. pose proof (find_none _ _ E P Hin) as Hf. simpl in Hf.
    rewrite HP, String.eqb_refl in Hf. discriminate.
Qed.

(** With unique identifiers the entry found is the one that carries the
    identifier. *)
Lemma getProduct_unique (P : Product) :
  NoDup (map ProductID products) -> In P products ->
  ProductID P <> "NONE" ->
  getProduct products (ProductID P) = Some P.
Proof.
  intros Hnd Hin Hid. rewrite (getProduct_ordinary _ Hid).
  induction products as [| q qs IH]; simpl in *; [contradiction |].
  inversion Hnd as [| x xs Hnotin Hnd']; subst.
  destruct Hin as [-> | Hin].
  - rewrite String.eqb_refl. reflexivity.
  - destruct (String.eqb_spec (ProductID q) (ProductID P)) as [E | _].
    + exfalso. apply Hnotin. rewrite E. apply in_map. exact Hin.
    + apply IH; assumption.
Qed.

Lemma getProduct_none_iff (id : string) :
  id <> "NONE" ->
  (getProduct products id = None
   <-> forall p, In p products -> ProductID p <> id).
Proof.
  intros Hid. split.
  - intros Hnone p Hin Hp.
    destruct (getProduct_found id p Hid Hin Hp) as [q Hq]. congruence.
  - apply getProduct_absent.
Qed.

End ResolverFacts.

(** C1 (as amended).  With unique catalog identifiers, resolving the
    identifier of a catalog product [P] yields exactly [P] provided that
    identifier is not the reserved string ['NONE'], and resolving a string
    that is no catalog identifier yields nothing. *)
Theorem getProduct_resolves :
  forall (products : Catalog),
    NoDup (map ProductID products) ->
    (forall P, In P products -> ProductID P <> "NONE" ->
               Resolver.getProduct products (ProductID P) = Some P)
    /\ (forall id, (forall p, In p products -> ProductID p <> id) ->
                   Resolver.getProduct products id = None).
Proof.
  intros products Hnd. split.
  - intros P Hin Hid. apply getProduct_unique; assumption.
  - intros id Hnone. apply getProduct_absent. exact Hnone.
Qed.

Lemma sample_catalog_NoDup : NoDup (map ProductID Samples.catalog).
Proof. distinct_ids. Qed.

Lemma getProduct_resolves_witness :
  Resolver.getProduct Samples.catalog "C3" = Some Samples.productC3
  /\ Resolver.getProduct Samples.catalog "Z0" = None.
Proof.
  destruct (getProduct_resolves Samples.catalog sample_catalog_NoDup)
    as [Hfound Habsent].
  split.
  - apply (Hfound Samples.productC3).
    + simpl. auto.
    + simpl. discriminate.
  - apply Habsent. each_product.
Defined.

(** C1 (as stated) fails on a catalog with unique identifiers one of whose
    products carries the identifier ['NONE']: resolving that product's own
    identifier does not yield the product. *)
Lemma getProduct_own_id_counterexample :
  NoDup (map ProductID Samples.catalogWithNONE)
  /\ In Samples.productNONE Samples.catalogWithNONE
  /\ Resolver.getProduct Samples.catalogWithNONE
       (ProductID Samples.productNONE) <> Some Samples.productNONE.
Proof.
  split; [| split].
  - distinct_ids.
  - simpl. auto.
  - simpl. discriminate.
Qed.

(** An absent slot renders the same placeholder whatever made it absent. *)
Lemma absent_slot_card (products : Catalog) (id category : string) :
  Resolver.getProduct products id = None ->
  Resolver.ProductCard (Resolver.getProduct products id) category
  = Resolver.Placeholder ("No " ++ category ++ " selected").
Proof. intros ->. reflexivity. Qed.

(** C2 (as amended).  The exact string ['NONE'] as [bottom_id] yields the
    absent marker whatever the catalog.  The other casings (['none'],
    ['NoNe'], ['None']) are ordinary identifiers: they yield the absent
    marker exactly when no catalog product carries that identifier.  An
    absent bottom slot is the same value and renders the same card whether
    it comes from the sentinel or from a failed lookup. *)
Theorem sentinel_is_case_sensitive :
  forall (products : Catalog) (r : RecommendationIds),
    (bottom_id r = "NONE" ->
     bottom (Resolver.outfitSlots products r) = None)
    /\ (forall id, In id ["none"; "NoNe"; "None"] -> bottom_id r = id ->
          (bottom (Resolver.outfitSlots products r) = None
           <-> forall p, In p products -> ProductID p <> id))
    /\ (forall id, Resolver.getProduct products id = None ->
          Resolver.getProduct products id = Resolver.getProduct products "NONE"
          /\ Resolver.ProductCard (Resolver.getProduct products id) "Bottom"
             = Resolver.ProductCard (Resolver.getProduct products "NONE")
                                    "Bottom").
Proof.
  intros products r. split; [| split].
  - intros E. simpl. rewrite E. reflexivity.
  - intros id Hid E. simpl. rewrite E.
    apply getProduct_none_iff.
    destruct Hid as [<- | [<- | [<- | []]]]; discriminate.
  - intros id Hnone. rewrite Hnone. split; reflexivity.
Qed.

Lemma sentinel_is_case_sensitive_witness :
  bottom (Resolver.outfitSlots Samples.catalog Samples.exampleIds) = None
  /\ (bottom (Resolver.outfitSlots Samples.catalog
                (mkRecommendationIds "A1" "none" "C3" "D4" [] [] "x" "Y"))
      = None
      <-> forall p, In p Samples.catalog -> ProductID p <> "none")
  /\ Resolver.ProductCard (Resolver.getProduct Samples.catalog "Z0") "Bottom"
     = Resolver.ProductCard (Resolver.getProduct Samples.catalog "NONE")
                            "Bottom".
Proof.
  split; [| split].
  - apply (sentinel_is_case_sensitive Samples.catalog Samples.exampleIds).
    reflexivity.
  - apply (sentinel_is_case_sensitive Samples.catalog
             (mkRecommendationIds "A1" "none" "C3" "D4" [] [] "x" "Y")).
    + simpl. auto.
    + reflexivity.
  - apply (sentinel_is_case_sensitive Samples.catalog Samples.exampleIds).
    reflexivity.
Defined.

(** C2 (as stated) fails for the casing ['none'] on a catalog that has a
    product with that identifier: the bottom slot holds the product. *)
Lemma lowercase_none_counterexample :
  bottom (Resolver.outfitSlots Samples.catalogWithLowerNone
            (mkRecommendationIds "A1" "none" "C3" "D4" [] [] "x" "Y"))
  = Some Samples.productLowerNone
  /\ bottom (Resolver.outfitSlots Samples.catalogWithLowerNone
               (mkRecommendationIds "A1" "none" "C3" "D4" [] [] "x" "Y"))
     <> None.
Proof. split; [reflexivity | discriminate]. Qed.

(** The worked example of the specification: catalog A1, B2, C3, D4 and a
    response that picks A1, no bottom, C3 and D4. *)
Example worked_example :
  Resolver.outfitSlots Samples.catalog Samples.exampleIds
  = mkOutfit (Some Samples.productA1) None (Some Samples.productC3)
             (Some Samples.productD4)
  /\ JSON.readRecommendationIds Samples.goodValue = Some Samples.exampleIds
  /\ JSON.parseFragment Samples.goodText = Some Samples.goodValue.
Proof. vm_compute. repeat split. Qed.

(** Each slot is resolved from its own identifier alone. *)
Lemma slots_independent (products : Catalog) (r r' : RecommendationIds) :
  (top_id r = top_id r' ->
   top (Resolver.outfitSlots products r)
   = top (Resolver.outfitSlots products r'))
  /\ (bottom_id r = bottom_id r' ->
      bottom (Resolver.outfitSlots products r)
      = bottom (Resolver.outfitSlots products r'))
  /\ (footwear_id r = footwear_id r' ->
      footwear (Resolver.outfitSlots products r)
      = footwear (Resolver.outfitSlots products r'))
  /\ (accessory_id r = accessory_id r' ->
      accessory (Resolver.outfitSlots products r)
      = accessory (Resolver.outfitSlots products r')).
Proof. simpl. repeat split; intros ->; reflexivity. Qed.

(** C4 (as amended).  When [top_id] matches no catalog entry and
    [bottom_id], [footwear_id] and [accessory_id] each match a catalog entry
    and none of them is the reserved string ['NONE'], the top slot is absent
    and the other three slots hold catalog products with the identifiers
    asked for; with unique identifiers these are exactly the matched
    products.  The three slots do not depend on [top_id], and resolution is
    a total function: it cannot abort. *)
Theorem unresolved_top_keeps_other_slots :
  forall (products : Catalog) (r : RecommendationIds) (Pb Pf Pa : Product),
    (forall p, In p products -> ProductID p <> top_id r) ->
    In Pb products -> ProductID Pb = bottom_id r -> bottom_id r <> "NONE" ->
    In Pf products -> ProductID Pf = footwear_id r -> footwear_id r <> "NONE" ->
    In Pa products -> ProductID Pa = accessory_id r -> accessory_id r <> "NONE" ->
    (exists pb pf pa,
        Resolver.outfitSlots products r
        = mkOutfit None (Some pb) (Some pf) (Some pa)
        /\ (In pb products /\ ProductID pb = bottom_id r)
        /\ (In pf products /\ ProductID pf = footwear_id r)
        /\ (In pa products /\ ProductID pa = accessory_id r))
    /\ (NoDup (map ProductID products) ->
        Resolver.outfitSlots products r
        = mkOutfit None (Some Pb) (Some Pf) (Some Pa))
    /\ (forall other_top,
          let r' := mkRecommendationIds other_top (bottom_id r)
                      (footwear_id r) (accessory_id r) (style_tags r)
                      (color_palette r) (reasoning r) (occasion_title r) in
          bottom (Resolver.outfitSlots products r')
          = bottom (Resolver.outfitSlots products r)
          /\ footwear (Resolver.outfitSlots products r')
             = footwear (Resolver.outfitSlots products r)
          /\ accessory (Resolver.outfitSlots products r')
             = accessory (Resolver.outfitSlots products r)).
Proof.
  intros products r Pb Pf Pa Htop Hb Eb Nb Hf Ef Nf Ha Ea Na.
  pose proof (getProduct_absent products (top_id r) Htop) as Etop.
  split; [| split].
  - destruct (getProduct_found products _ Pb Nb Hb Eb) as [pb Hpb].
    destruct (getProduct_found products _ Pf Nf Hf Ef) as [pf Hpf].
    destruct (getProduct_found products _ Pa Na Ha Ea) as [pa Hpa].
    exists pb, pf, pa. unfold Resolver.outfitSlots.
    rewrite Etop, Hpb, Hpf, Hpa.
    split; [reflexivity |].
    split; [apply getProduct_sound; exact Hpb |].
    split; apply getProduct_sound; assumption.
  - intros Hnd. unfold Resolver.outfitSlots. rewrite Etop.
    rewrite <- Eb, <- Ef, <- Ea.
    rewrite !getProduct_unique; try assumption; congruence.
  - intros other_top. simpl. repeat split; reflexivity.
Qed.

Lemma unresolved_top_keeps_other_slots_witness :
  Resolver.outfitSlots Samples.catalog Samples.unknownTopIds
  = mkOutfit None (Some Samples.productB2) (Some Samples.productC3)
             (Some Samples.productD4).
Proof.
  apply (unresolved_top_keeps_other_slots Samples.catalog Samples.unknownTopIds
           Samples.productB2 Samples.productC3 Samples.productD4).
  - each_product.
  - simpl. auto.
  - reflexivity.
  - simpl. discriminate.
  - simpl. auto.
  - reflexivity.
  - simpl. discriminate.
  - simpl. auto.
  - reflexivity.
  - simpl. discriminate.
  - distinct_ids.
Defined.

(** C4 (as stated) fails when one of the three matching identifiers is the
    identifier ['NONE'] of a catalog product: [top_id] matches nothing, the
    other three identifiers each match a catalog entry, and yet the footwear
    slot is absent. *)
Lemma matching_footwear_counterexample :
  (forall p, In p Samples.catalogWithNONE ->
             ProductID p <> top_id Samples.footwearNONEIds)
  /\ (In Samples.productB2 Samples.catalogWithNONE
      /\ ProductID Samples.productB2 = bottom_id Samples.footwearNONEIds)
  /\ (In Samples.productNONE Samples.catalogWithNONE
      /\ ProductID Samples.productNONE = footwear_id Samples.footwearNONEIds)
  /\ (In Samples.productD4 Samples.catalogWithNONE
      /\ ProductID Samples.productD4 = accessory_id Samples.footwearNONEIds)
  /\ footwear (Resolver.outfitSlots Samples.catalogWithNONE
                 Samples.footwearNONEIds) = None.
Proof.
  repeat split; simpl; auto.
  each_product.
Qed.

(** C9.  The sentinel test is the first statement of [getProduct] and
    [getProduct] resolves all four slots: an identifier equal to ['NONE']
    yields the absent marker in the top, bottom, footwear and accessory slot
    alike, for every catalog, also one that has a product with the
    identifier ['NONE']. *)
Theorem sentinel_applies_to_every_slot :
  forall (products : Catalog) (t b f a : string) (tags pal : list string)
         (why title : string),
    Resolver.getProduct products "NONE" = None
    /\ top (Resolver.outfitSlots products
              (mkRecommendationIds "NONE" b f a tags pal why title)) = None
    /\ bottom (Resolver.outfitSlots products
                 (mkRecommendationIds t "NONE" f a tags pal why title)) = None
    /\ footwear (Resolver.outfitSlots products
                   (mkRecommendationIds t b "NONE" a tags pal why title)) = None
    /\ accessory (Resolver.outfitSlots products
                    (mkRecommendationIds t b f "NONE" tags pal why title)) = None
    /\ Resolver.outfitGrid products
         (mkRecommendationIds "NONE" "NONE" "NONE" "NONE" tags pal why title)
       = [ Resolver.Placeholder "No Top selected";
           Resolver.Placeholder "No Bottom selected";
           Resolver.Placeholder "No Footwear selected";
           Resolver.Placeholder "No Accessory selected" ]
    /\ (In Samples.productNONE (Samples.productNONE :: products)
        /\ Resolver.getProduct (Samples.productNONE :: products)
             (ProductID Samples.productNONE) = None).
Proof.
  intros. repeat split; simpl; auto.
Qed.

(* ================================================================== *)
(** * The inventory context *)
(* ================================================================== *)

Section SerializerFacts.

Import JSString Serializer.

Lemma occurs_app (c : ascii) (a b : string) :
  occurs c (a ++ b) = occurs c a || occurs c b.
Proof.
  induction a as [| x a IH]; simpl; [reflexivity |].
  rewrite IH. apply orb_assoc.
Qed.

(** A piece without the separator, followed by the separator, is split off
    whole. *)
Lemma splitOn_piece (c : ascii) (s t : string) :
  occurs c s = false ->
  splitOn c (s ++ String c t) = s :: splitOn c t.
Proof.
  induction s as [| x s IH]; simpl; intros Hfree.
  - rewrite Ascii.eqb_refl. reflexivity.
  - apply orb_false_elim in Hfree. destruct Hfree as [Hx Hs].
    rewrite Hx, (IH Hs). reflexivity.
Qed.

Lemma splitOn_last (c : ascii) (s : string) :
  occurs c s = false -> splitOn c s = [s].
Proof.
  induction s as [| x s IH]; simpl; intros Hfree; [reflexivity |].
  apply orb_false_elim in Hfree. destruct Hfree as [Hx Hs].
  rewrite Hx, (IH Hs). reflexivity.
Qed.

(** Splitting a joined list gives the list back when no piece contains the
    separator. *)
Lemma splitOn_join (c : ascii) (pieces : list string) :
  pieces <> [] ->
  Forall (fun piece => occurs c piece = false) pieces ->
  splitOn c (join (String c EmptyString) pieces) = pieces.
Proof.
  intros Hne Hfree. induction Hfree as [| p rest Hp Hrest IH].
  - contradiction.
  - destruct rest as [| q rest'].
    + simpl. apply splitOn_last. exact Hp.
    + change (join (String c EmptyString) (p :: q :: rest'))
        with (p ++ String c (join (String c EmptyString) (q :: rest'))).
      rewrite (splitOn_piece c p _ Hp), IH; [reflexivity | discriminate].
Qed.

Lemma inventoryLine_single (p : Product) :
  singleLine p = true -> occurs LF (inventoryLine p) = false.
Proof.
  unfold singleLine, serializedFields. simpl.
  rewrite !andb_true_iff, !negb_true_iff.
  intros (H1 & H2 & H3 & H4 & H5 & _).
  unfold inventoryLine.
  repeat (first [rewrite occurs_app | progress simpl]).
  rewrite H1, H2, H3, H4, H5. reflexivity.
Qed.

(** A line starts with the letters of ["ID: "], so a context of at least one
    line is not the empty string. *)
Lemma inventoryContext_nonempty (p : Product) (ps : Catalog) :
  exists rest, inventoryContext (p :: ps) = String "I" rest.
Proof.
  unfold inventoryContext. simpl. destruct (map inventoryLine ps);
    unfold inventoryLine; simpl; eexists; reflexivity.
Qed.

Lemma inventoryContext_lines (products : Catalog) :
  forallb singleLine products = true ->
  lines (inventoryContext products) = map inventoryLine products.
Proof.
  intros Hsingle. destruct products as [| p ps]; [reflexivity |].
  destruct (inventoryContext_nonempty p ps) as [rest E].
  unfold lines. rewrite E, <- E. unfold inventoryContext, nl.
  apply splitOn_join; [discriminate |].
  apply Forall_forall. intros l Hl. apply in_map_iff in Hl.
  destruct Hl as (q & <- & Hq). apply inventoryLine_single.
  rewrite forallb_forall in Hsingle. apply Hsingle. exact Hq.
Qed.

Lemma append_assoc (a b c : string) : (a ++ b) ++ c = a ++ (b ++ c).
Proof. induction a as [| x a IH]; simpl; congruence. Qed.

Lemma append_empty_r (a : string) : a ++ "" = a.
Proof. induction a as [| x a IH]; simpl; congruence. Qed.

(** Brings both sides of an equation between concatenations to the
    right-nested form. *)
Ltac right_nested :=
  repeat (first [rewrite append_assoc | progress simpl]); reflexivity.

Lemma inventoryLine_contains (p : Product) :
  Forall (contains (inventoryLine p)) (serializedFields p).
Proof.
  unfold serializedFields, inventoryLine, contains.
  repeat constructor.
  - exists "ID: ". eexists. reflexivity.
  - exists ("ID: " ++ ProductID p ++ ", Name: "). eexists.
    right_nested.
  - exists ("ID: " ++ ProductID p ++ ", Name: " ++ ProductName p
            ++ ", Brand: "). eexists.
    right_nested.
  - exists ("ID: " ++ ProductID p ++ ", Name: " ++ ProductName p
            ++ ", Brand: " ++ ProductBrand p ++ ", Color: "). eexists.
    right_nested.
  - exists ("ID: " ++ ProductID p ++ ", Name: " ++ ProductName p
            ++ ", Brand: " ++ ProductBrand p ++ ", Color: "
            ++ PrimaryColor p ++ ", Desc: "). exists "".
    rewrite append_empty_r.
    right_nested.
Qed.

End SerializerFacts.

(** C8 (as amended).  For every catalog in which no serialized field
    (identifier, name, brand, colour, description) contains a line feed, the
    inventory context has exactly one line per product, in catalog order,
    and each line is the product's entry.  For every catalog, a product's
    entry contains its identifier, name, brand, colour and description and
    does not depend on its price, image count or gender; the context of the
    empty catalog is the empty string; serialization is a total function. *)
Theorem inventory_context_one_line_per_product :
  forall (products : Catalog),
    (forallb Serializer.singleLine products = true ->
     JSString.lines (Serializer.inventoryContext products)
     = map Serializer.inventoryLine products)
    /\ (forall p, Forall (Serializer.contains (Serializer.inventoryLine p))
                    [ProductID p; ProductName p; ProductBrand p;
                     PrimaryColor p; Description p])
    /\ (forall p gender price images,
          Serializer.inventoryLine
            (mkProduct (ProductID p) (ProductName p) (ProductBrand p)
                       gender price images (Description p) (PrimaryColor p))
          = Serializer.inventoryLine p)
    /\ Serializer.inventoryContext [] = "".
Proof.
  intros products. split; [| split; [| split]].
  - apply inventoryContext_lines.
  - apply inventoryLine_contains.
  - reflexivity.
  - reflexivity.
Qed.

Lemma inventory_context_one_line_per_product_witness :
  JSString.lines (Serializer.inventoryContext Samples.catalog)
  = map Serializer.inventoryLine Samples.catalog.
Proof.
  apply (inventory_context_one_line_per_product Samples.catalog).
  reflexivity.
Defined.

(** C8 (as stated) fails on a catalog whose one product has a description
    of two lines: the context has two lines for one product. *)
Lemma two_line_description_counterexample :
  List.length Samples.catalogTwoLines = 1
  /\ List.length (JSString.lines
               (Serializer.inventoryContext Samples.catalogTwoLines)) = 2
  /\ JSString.lines (Serializer.inventoryContext Samples.catalogTwoLines)
     <> map Serializer.inventoryLine Samples.catalogTwoLines.
Proof.
  split; [reflexivity | split; [reflexivity |]].
  intros E. apply (f_equal (@List.length string)) in E. vm_compute in E.
  discriminate.
Qed.

(* ================================================================== *)
(** * White space and [trim] *)
(* ================================================================== *)

Section TrimFacts.

Import JSString.

Lemma trimEnd_empty_iff (s : string) :
  trimEnd s = "" <-> allWhiteSpace s = true.
Proof.
  induction s as [| c s IH]; simpl.
  - split; reflexivity.
  - destruct (trimEnd s) as [| d rest].
    + destruct (isWhiteSpace c); simpl.
      * rewrite <- IH. split; reflexivity.
      * split; discriminate.
    + split; [discriminate |]. intros H.
      apply andb_true_iff in H. destruct H as [_ H].
      apply IH in H. discriminate.
Qed.

Lemma allWhiteSpace_trimStart (s : string) :
  allWhiteSpace (trimStart s) = allWhiteSpace s.
Proof.
  induction s as [| c s IH]; simpl; [reflexivity |].
  destruct (isWhiteSpace c) eqn:E; simpl.
  - exact IH.
  - rewrite E. reflexivity.
Qed.

(** [!query.trim()] holds exactly for the strings made of white space
    only, the empty string among them. *)
Lemma blank_iff (s : string) :
  truthy (trim s) = false <-> allWhiteSpace s = true.
Proof.
  unfold trim. rewrite <- allWhiteSpace_trimStart, <- trimEnd_empty_iff.
  destruct (trimEnd (trimStart s)); simpl; split; congruence.
Qed.

End TrimFacts.

(* ================================================================== *)
(** * [handleStyleMe] *)
(* ================================================================== *)

Section PipelineFacts.

Import JSON Pipeline.

Variable products : Catalog.
Variable JSON_parse : string -> option JSValue.

Local Abbreviation begin := (handleStyleMe_begin products).
Local Abbreviation resume := (handleStyleMe_resume JSON_parse).
Local Abbreviation step := (Pipeline.step products JSON_parse).
Local Abbreviation invoke := (Pipeline.invoke products JSON_parse).

Lemma begin_blank (w : World) :
  JSString.truthy (JSString.trim (query (app w))) = false -> begin w = w.
Proof. intros H. unfold handleStyleMe_begin. rewrite H. reflexivity. Qed.

Lemma begin_nonblank (w : World) :
  JSString.truthy (JSString.trim (query (app w))) = true ->
  begin w
  = {| app := {| query := query (app w); loading := true;
                 recommendation := JNull; error := None |};
       sent := (sent w ++ [Serializer.makeRequest products (query (app w))])%list;
       inflight := S (inflight w) |}.
Proof. intros H. unfold handleStyleMe_begin. rewrite H. reflexivity. Qed.

(** An invocation of its own, for a query that is not blank: the state is
    cleared, one request is sent and its completion is handled. *)
Lemma invoke_nonblank (c : Completion) (w : World) :
  JSString.truthy (JSString.trim (query (app w))) = true ->
  invoke c w
  = {| app := resume c {| query := query (app w); loading := true;
                          recommendation := JNull; error := None |};
       sent := (sent w ++ [Serializer.makeRequest products (query (app w))])%list;
       inflight := inflight w |}.
Proof.
  intros H.
  assert (E : Nat.eqb (S (inflight w)) (inflight w) = false)
    by (apply Nat.eqb_neq; lia).
  unfold Pipeline.invoke. rewrite (begin_nonblank w H).
  cbn [inflight]. rewrite E. reflexivity.
Qed.

Lemma invoke_blank (c : Completion) (w : World) :
  JSString.truthy (JSString.trim (query (app w))) = false -> invoke c w = w.
Proof.
  intros H. unfold Pipeline.invoke. rewrite (begin_blank w H).
  rewrite Nat.eqb_refl. reflexivity.
Qed.

(** A rejected call surfaces the error message; no request is sent again. *)
Lemma rejected_call_surfaces_error (w : World) :
  JSString.truthy (JSString.trim (query (app w))) = true ->
  error (app (invoke Rejects w)) = Some aiErrorMessage
  /\ recommendation (app (invoke Rejects w)) = JNull
  /\ loading (app (invoke Rejects w)) = false
  /\ sent (invoke Rejects w)
     = (sent w ++ [Serializer.makeRequest products (query (app w))])%list.
Proof. intros H. rewrite (invoke_nonblank _ w H). repeat split. Qed.

(** The completion of a request sends nothing: the pipeline never retries. *)
Lemma settle_sends_nothing (c : Completion) (w : World) :
  sent (step w (Settle c)) = sent w.
Proof. simpl. destruct (inflight w); reflexivity. Qed.

(** An invocation that nothing interleaves with keeps the error state and
    the recommendation exclusive. *)
Lemma invoke_exclusive (c : Completion) (w : World) :
  exclusive (app w) -> exclusive (app (invoke c w)).
Proof.
  intros Hw.
  destruct (JSString.truthy (JSString.trim (query (app w)))) eqn:Hq.
  - rewrite (invoke_nonblank _ w Hq). unfold exclusive, exclusiveb. simpl.
    unfold handleStyleMe_resume, afterAwait.
    destruct c as [| [t |]]; simpl; auto.
    destruct (JSString.truthy t); simpl; auto.
    destruct (JSON_parse t); simpl; auto.
  - rewrite (invoke_blank _ w Hq). exact Hw.
Qed.

(** The click of a disabled button changes nothing. *)
Lemma click_while_loading (w : World) :
  loading (app w) = true -> step w Click = w.
Proof. intros H. simpl. unfold buttonDisabled. rewrite H. reflexivity. Qed.

Lemma resume_exclusive (c : Completion) (st : AppState) :
  error st = None -> recommendation st = JNull ->
  loading (resume c st) = false /\ exclusive (resume c st).
Proof.
  intros He Hr.
  unfold exclusive, exclusiveb, handleStyleMe_resume, afterAwait.
  destruct c as [| [t |]]; simpl; rewrite ?He, ?Hr; auto.
  destruct (JSString.truthy t); simpl; rewrite ?He, ?Hr; auto.
  destruct (JSON_parse t); simpl; rewrite ?He, ?Hr; auto.
Qed.

(** Every event but the Enter key keeps the requests single-flight. *)
Lemma step_singleFlight (w : World) (e : Event) :
  singleFlight w -> startsByKey e = false -> singleFlight (step w e).
Proof.
  intros Hw He. destruct e as [v | | key | c]; simpl in *.
  - exact Hw.
  - unfold buttonDisabled.
    destruct Hw as [(Hf & Hl & Hx) | (Hf & Hl & Herr & Hrec)];
      rewrite Hl; simpl.
    + destruct (JSString.truthy (query (app w))); simpl;
        [| left; auto].
      destruct (JSString.truthy (JSString.trim (query (app w)))) eqn:Hq.
      * rewrite (begin_nonblank w Hq). right. simpl. rewrite Hf. auto.
      * rewrite (begin_blank w Hq). left. auto.
    + right. auto.
  - rewrite He. exact Hw.
  - destruct Hw as [(Hf & Hl & Hx) | (Hf & Hl & Herr & Hrec)]; rewrite Hf.
    + left. auto.
    + left. simpl. destruct (resume_exclusive c (app w) Herr Hrec). auto.
Qed.

(** Without the Enter key, from the initial page on: never two requests in
    flight, and the error state and the recommendation never both set. *)
Lemma run_singleFlight (events : list Event) :
  forall w,
    singleFlight w ->
    forallb (fun e => negb (startsByKey e)) events = true ->
    singleFlight (Pipeline.run products JSON_parse w events).
Proof.
  induction events as [| e events IH]; intros w Hw Hev; simpl in *.
  - exact Hw.
  - apply andb_true_iff in Hev. destruct Hev as [He Hev].
    apply negb_true_iff in He.
    apply IH; [apply step_singleFlight; assumption | exact Hev].
Qed.

Lemma singleFlight_bounds (w : World) :
  singleFlight w -> inflight w <= 1 /\ exclusive (app w).
Proof.
  unfold exclusive, exclusiveb.
  intros [(Hf & _ & Hx) | (Hf & _ & Herr & _)]; rewrite Hf; auto.
  rewrite Herr. auto.
Qed.

End PipelineFacts.

(** C3 (as amended).  For a query that is not blank and a response whose
    text is not empty: if the text is not valid JSON ([JSON.parse] throws)
    the invocation surfaces the error message and stores no recommendation;
    if the text parses, the parsed value is stored as the recommendation and
    no error is surfaced, whatever the structure of the value.  No check
    against the schema of [RecommendationIds] takes place. *)
Theorem only_unparsable_text_is_rejected :
  forall (products : Catalog) (JSON_parse : string -> option JSON.JSValue)
         (w : Pipeline.World) (text : string),
    JSString.truthy (JSString.trim (Pipeline.query (Pipeline.app w))) = true ->
    text <> "" ->
    let w' := Pipeline.invoke products JSON_parse
                (Pipeline.Resolves (Some text)) w in
    (JSON_parse text = None ->
     Pipeline.error (Pipeline.app w') = Some Pipeline.aiErrorMessage
     /\ Pipeline.recommendation (Pipeline.app w') = JSON.JNull)
    /\ (forall data, JSON_parse text = Some data ->
          Pipeline.recommendation (Pipeline.app w') = data
          /\ Pipeline.error (Pipeline.app w') = None).
Proof.
  intros products JSON_parse w text Hq Htext w'. subst w'.
  rewrite (invoke_nonblank products JSON_parse _ w Hq).
  unfold Pipeline.handleStyleMe_resume, Pipeline.afterAwait.
  destruct text as [| c rest]; [contradiction |]. simpl.
  split.
  - intros ->. simpl. split; reflexivity.
  - intros data ->. simpl. split; reflexivity.
Qed.

Lemma only_unparsable_text_is_rejected_witness :
  (let w' := Pipeline.invoke Samples.catalog JSON.parseFragment
               (Pipeline.Resolves (Some Samples.brokenText))
               (Samples.typed "garden party") in
   Pipeline.error (Pipeline.app w') = Some Pipeline.aiErrorMessage
   /\ Pipeline.recommendation (Pipeline.app w') = JSON.JNull)
  /\ (let w' := Pipeline.invoke Samples.catalog JSON.parseFragment
                  (Pipeline.Resolves (Some Samples.goodText))
                  (Samples.typed "garden party") in
      Pipeline.recommendation (Pipeline.app w') = Samples.goodValue
      /\ Pipeline.error (Pipeline.app w') = None).
Proof.
  split.
  - apply (only_unparsable_text_is_rejected Samples.catalog JSON.parseFragment
             (Samples.typed "garden party") Samples.brokenText).
    + reflexivity.
    + discriminate.
    + reflexivity.
  - apply (only_unparsable_text_is_rejected Samples.catalog JSON.parseFragment
             (Samples.typed "garden party") Samples.goodText).
    + reflexivity.
    + discriminate.
    + reflexivity.
Defined.

(** C3 (as stated) fails on a response whose [style_tags] is a single
    string: the text parses, the value does not have the structure of
    [RecommendationIds], and the invocation stores it as the recommendation
    without surfacing an error. *)
Lemma style_tags_string_counterexample :
  JSON.parseFragment Samples.badShapeText = Some Samples.badShapeValue
  /\ JSON.matchesSchema Samples.badShapeValue = false
  /\ (let w' := Pipeline.invoke Samples.catalog JSON.parseFragment
                  (Pipeline.Resolves (Some Samples.badShapeText))
                  (Samples.typed "garden party") in
      Pipeline.error (Pipeline.app w') = None
      /\ Pipeline.recommendation (Pipeline.app w') = Samples.badShapeValue).
Proof. vm_compute. repeat split. Qed.

(** C5 (the code at the failing input).  When the generation call resolves
    with no text ([response.text] is [undefined] or ['']), the invocation
    ends with no error surfaced and no recommendation: the user-facing state
    shows no failure. *)
Theorem no_text_surfaces_no_failure :
  forall (products : Catalog) (JSON_parse : string -> option JSON.JSValue)
         (w : Pipeline.World) (text : option string),
    JSString.truthy (JSString.trim (Pipeline.query (Pipeline.app w))) = true ->
    text = None \/ text = Some "" ->
    let w' := Pipeline.invoke products JSON_parse (Pipeline.Resolves text) w in
    Pipeline.error (Pipeline.app w') = None
    /\ Pipeline.errorShown (Pipeline.app w') = false
    /\ Pipeline.recommendation (Pipeline.app w') = JSON.JNull
    /\ Pipeline.loading (Pipeline.app w') = false.
Proof.
  intros products JSON_parse w text Hq Htext w'. subst w'.
  rewrite (invoke_nonblank products JSON_parse _ w Hq).
  destruct Htext as [-> | ->]; repeat split.
Qed.

Lemma no_text_surfaces_no_failure_witness :
  let w' := Pipeline.invoke Samples.catalog JSON.parseFragment
              (Pipeline.Resolves None) (Samples.typed "garden party") in
  Pipeline.error (Pipeline.app w') = None
  /\ Pipeline.errorShown (Pipeline.app w') = false
  /\ Pipeline.recommendation (Pipeline.app w') = JSON.JNull
  /\ Pipeline.loading (Pipeline.app w') = false.
Proof.
  apply (no_text_surfaces_no_failure Samples.catalog JSON.parseFragment
           (Samples.typed "garden party") None).
  - reflexivity.
  - left. reflexivity.
Defined.

(** C6 (as amended).  For every query that is blank or made of white space
    only, an invocation returns at once: no request is sent, and the state,
    its error cell included, is left as it was; no failure state is
    surfaced.  This holds for the click and for the Enter key alike. *)
Theorem blank_query_is_ignored :
  forall (products : Catalog) (JSON_parse : string -> option JSON.JSValue)
         (w : Pipeline.World),
    JSString.allWhiteSpace (Pipeline.query (Pipeline.app w)) = true ->
    Pipeline.handleStyleMe_begin products w = w
    /\ Pipeline.step products JSON_parse w Pipeline.Click = w
    /\ Pipeline.step products JSON_parse w (Pipeline.KeyDown "Enter") = w
    /\ Pipeline.sent (Pipeline.handleStyleMe_begin products w)
       = Pipeline.sent w
    /\ Pipeline.error (Pipeline.app (Pipeline.handleStyleMe_begin products w))
       = Pipeline.error (Pipeline.app w).
Proof.
  intros products JSON_parse w Hblank.
  apply blank_iff in Hblank.
  pose proof (begin_blank products w Hblank) as E.
  repeat split; simpl; try rewrite E; try reflexivity.
  destruct (Pipeline.buttonDisabled (Pipeline.app w)); reflexivity.
Qed.

Lemma blank_query_is_ignored_witness :
  Pipeline.step Samples.catalog JSON.parseFragment (Samples.typed "   ")
    (Pipeline.KeyDown "Enter") = Samples.typed "   ".
Proof.
  apply (blank_query_is_ignored Samples.catalog JSON.parseFragment
           (Samples.typed "   ")).
  reflexivity.
Defined.

(** C6 (as stated) fails on the query of three spaces: after the user has
    typed it and asked for a recommendation, by the button or by the Enter
    key, no request has been sent and no failure state is surfaced. *)
Lemma blank_query_counterexample :
  JSString.trim "   " = ""
  /\ (let w' := Samples.run Pipeline.initialWorld
                  [Pipeline.Change "   "; Pipeline.Click] in
      Pipeline.sent w' = []
      /\ Pipeline.error (Pipeline.app w') = None
      /\ Pipeline.errorShown (Pipeline.app w') = false)
  /\ (let w' := Samples.run Pipeline.initialWorld
                  [Pipeline.Change "   "; Pipeline.KeyDown "Enter"] in
      Pipeline.sent w' = []
      /\ Pipeline.error (Pipeline.app w') = None
      /\ Pipeline.errorShown (Pipeline.app w') = false).
Proof. vm_compute. repeat split. Qed.

(** C7 (the code at the failing input).  While a request is outstanding
    ([loading] is set) and the query is not blank, a click on the button is
    ignored, but the Enter key starts another invocation: a second request
    is sent and two are in flight. *)
Theorem enter_key_ignores_busy_flag :
  forall (products : Catalog) (JSON_parse : string -> option JSON.JSValue)
         (w : Pipeline.World),
    Pipeline.loading (Pipeline.app w) = true ->
    JSString.truthy (JSString.trim (Pipeline.query (Pipeline.app w))) = true ->
    Pipeline.step products JSON_parse w Pipeline.Click = w
    /\ Pipeline.inflight
         (Pipeline.step products JSON_parse w (Pipeline.KeyDown "Enter"))
       = S (Pipeline.inflight w)
    /\ Pipeline.sent
         (Pipeline.step products JSON_parse w (Pipeline.KeyDown "Enter"))
       = (Pipeline.sent w
          ++ [Serializer.makeRequest products
                (Pipeline.query (Pipeline.app w))])%list.
Proof.
  intros products JSON_parse w Hbusy Hq. split.
  - apply click_while_loading. exact Hbusy.
  - simpl. rewrite (begin_nonblank products w Hq). split; reflexivity.
Qed.

Lemma enter_key_ignores_busy_flag_witness :
  Pipeline.inflight Samples.busy = 1
  /\ Pipeline.step Samples.catalog JSON.parseFragment Samples.busy
       Pipeline.Click = Samples.busy
  /\ Pipeline.inflight
       (Pipeline.step Samples.catalog JSON.parseFragment Samples.busy
          (Pipeline.KeyDown "Enter")) = 2.
Proof.
  split; [reflexivity |].
  destruct (enter_key_ignores_busy_flag Samples.catalog JSON.parseFragment
              Samples.busy) as (Hclick & Hflight & _).
  - reflexivity.
  - reflexivity.
  - split; [exact Hclick | exact Hflight].
Defined.

(** C10 (the code at the failing input).  Two invocations overlap when the
    user presses Enter twice.  If the first request is answered and the
    second fails, or the first fails and the second is answered, both
    invocations have completed and the page shows the error message
    together with a recommendation. *)
Theorem overlapping_invocations_break_exclusivity :
  (let st := Pipeline.app
               (Samples.run Pipeline.initialWorld Samples.answerThenFailure) in
   Pipeline.error st = Some Pipeline.aiErrorMessage
   /\ Pipeline.recommendation st = Samples.goodValue
   /\ Pipeline.errorShown st = true
   /\ Pipeline.recommendationShown st = true
   /\ ~ Pipeline.exclusive st)
  /\ (let st := Pipeline.app
                  (Samples.run Pipeline.initialWorld Samples.failureThenAnswer) in
      Pipeline.error st = Some Pipeline.aiErrorMessage
      /\ Pipeline.recommendation st = Samples.goodValue
      /\ Pipeline.errorShown st = true
      /\ Pipeline.recommendationShown st = true
      /\ ~ Pipeline.exclusive st)
  /\ Pipeline.inflight
       (Samples.run Pipeline.initialWorld Samples.answerThenFailure) = 0
  /\ Pipeline.inflight
       (Samples.run Pipeline.initialWorld Samples.failureThenAnswer) = 0.
Proof.
  vm_compute. repeat split; discriminate.
Qed.

(* ================================================================== *)
(** * Further properties of the resolver and the outfit grid *)
(* ================================================================== *)

(** X1.  [getProduct] never invents a product: what it returns is an entry
    of the catalog, it carries the identifier asked for, and that identifier
    is not ['NONE']. *)
Theorem getProduct_returns_catalog_entry :
  forall (products : Catalog) (id : string) (p : Product),
    Resolver.getProduct products id = Some p ->
    In p products /\ ProductID p = id /\ id <> "NONE".
Proof.
  intros products id p Hget.
  destruct (getProduct_sound products id p Hget) as [Hin Hid].
  repeat split; try assumption.
  intros ->. rewrite getProduct_sentinel in Hget. discriminate.
Qed.

Lemma getProduct_returns_catalog_entry_witness :
  In Samples.productC3 Samples.catalog
  /\ ProductID Samples.productC3 = "C3" /\ "C3" <> "NONE".
Proof.
  apply (getProduct_returns_catalog_entry Samples.catalog "C3"
           Samples.productC3).
  reflexivity.
Defined.

(** X2.  When several catalog entries carry the same identifier, the first
    of them in catalog order is the one resolved. *)
Theorem getProduct_first_of_duplicates :
  forall (before after : Catalog) (p : Product),
    ProductID p <> "NONE" ->
    (forall q, In q before -> ProductID q <> ProductID p) ->
    Resolver.getProduct (before ++ p :: after)%list (ProductID p) = Some p.
Proof.
  intros before after p Hid Hbefore.
  rewrite (getProduct_ordinary _ _ Hid).
  induction before as [| q qs IH]; simpl.
  - rewrite String.eqb_refl. reflexivity.
  - destruct (String.eqb_spec (ProductID q) (ProductID p)) as [E | _].
    + exfalso. apply (Hbefore q); [left; reflexivity | exact E].
    + apply IH. intros r Hr. apply Hbefore. right. exact Hr.
Qed.

Lemma getProduct_first_of_duplicates_witness :
  Resolver.getProduct
    ([Samples.productA1] ++ Samples.productB2
       :: [Scenarios.productB2bis; Samples.productC3])%list "B2"
  = Some Samples.productB2.
Proof.
  apply (getProduct_first_of_duplicates [Samples.productA1]
           [Scenarios.productB2bis; Samples.productC3] Samples.productB2).
  - simpl. discriminate.
  - each_product.
Defined.

(** X3.  Resolution over a catalog followed by more entries: an identifier
    the first part resolves keeps its product, any other is looked up in the
    entries that follow. *)
Theorem getProduct_app :
  forall (products more : Catalog) (id : string),
    Resolver.getProduct (products ++ more)%list id
    = match Resolver.getProduct products id with
      | Some p => Some p
      | None => Resolver.getProduct more id
      end.
Proof.
  intros products more id. unfold Resolver.getProduct, Resolver.find_.
  destruct (String.eqb id "NONE"); [reflexivity |].
  induction products as [| q qs IH]; simpl; [reflexivity |].
  destruct (String.eqb (ProductID q) id
            || String.eqb (ProductID q) (Resolver.JS_String id));
    [reflexivity | exact IH].
Qed.

Lemma ProductCard_cardFor (products : Catalog) (id category : string) :
  Measures.cardFor products id category
    (Resolver.ProductCard (Resolver.getProduct products id) category).
Proof.
  unfold Measures.cardFor.
  destruct (Resolver.getProduct products id) as [p |] eqn:E.
  - right. exists p.
    destruct (getProduct_sound products id p E) as [Hin Hid].
    repeat split; assumption.
  - left. split; reflexivity.
Qed.

(** X4.  The outfit grid always has four cards, for Top, Bottom, Footwear
    and Accessory in this order; each is the placeholder of its category or
    the card of a catalog product that carries the recommended identifier. *)
Theorem outfitGrid_four_cards :
  forall (products : Catalog) (r : RecommendationIds),
    exists c1 c2 c3 c4,
      Resolver.outfitGrid products r = [c1; c2; c3; c4]
      /\ Measures.cardFor products (top_id r) "Top" c1
      /\ Measures.cardFor products (bottom_id r) "Bottom" c2
      /\ Measures.cardFor products (footwear_id r) "Footwear" c3
      /\ Measures.cardFor products (accessory_id r) "Accessory" c4.
Proof.
  intros products r. unfold Resolver.outfitGrid.
  do 4 eexists. split; [reflexivity |].
  repeat split; apply ProductCard_cardFor.
Qed.

(* ================================================================== *)
(** * Further properties of the inventory context and the request *)
(* ================================================================== *)

Section ContextFacts.

Import JSString Serializer Measures.

Lemma countUnit_app (c : ascii) (a b : string) :
  countUnit c (a ++ b) = countUnit c a + countUnit c b.
Proof.
  induction a as [| x a IH]; simpl; [reflexivity |].
  rewrite IH. lia.
Qed.

Lemma length_append (a b : string) :
  String.length (a ++ b) = String.length a + String.length b.
Proof. induction a as [| x a IH]; simpl; congruence. Qed.

(** A text has one piece more than it has separators. *)
Lemma length_splitOn (c : ascii) (s : string) :
  List.length (splitOn c s) = S (countUnit c s).
Proof.
  induction s as [| a s IH]; simpl; [reflexivity |].
  destruct (Ascii.eqb a c); simpl.
  - rewrite IH. reflexivity.
  - destruct (splitOn c s) as [| piece pieces]; simpl in *; lia.
Qed.

Lemma countUnit_join (c : ascii) (piece : string) (pieces : list string) :
  countUnit c (join (String c EmptyString) (piece :: pieces))
  = list_sum (map (countUnit c) (piece :: pieces)) + List.length pieces.
Proof.
  revert piece. induction pieces as [| q rest IH]; intros piece.
  - simpl. lia.
  - change (join (String c EmptyString) (piece :: q :: rest))
      with (piece ++ String c (join (String c EmptyString) (q :: rest))).
    rewrite countUnit_app.
    change (countUnit c (String c (join (String c EmptyString) (q :: rest))))
      with ((if Ascii.eqb c c then 1 else 0)
            + countUnit c (join (String c EmptyString) (q :: rest))).
    rewrite Ascii.eqb_refl, IH. simpl. lia.
Qed.

Lemma countUnit_inventoryLine (p : Product) :
  countUnit LF (inventoryLine p) = lineFeeds p.
Proof.
  unfold inventoryLine, lineFeeds, serializedFields.
  repeat (first [rewrite countUnit_app | progress simpl]). lia.
Qed.

Lemma list_sum_lineFeeds (products : Catalog) :
  list_sum (map (countUnit LF) (map inventoryLine products))
  = list_sum (map lineFeeds products).
Proof.
  induction products as [| p ps IH]; [reflexivity |].
  change (countUnit LF (inventoryLine p)
          + list_sum (map (countUnit LF) (map inventoryLine ps))
          = lineFeeds p + list_sum (map lineFeeds ps)).
  rewrite countUnit_inventoryLine, IH. reflexivity.
Qed.

(** A piece of a joined list is contained in the joined text. *)
Lemma join_contains (sep piece : string) (pieces : list string) :
  In piece pieces -> contains (join sep pieces) piece.
Proof.
  induction pieces as [| q rest IH]; intros Hin; [contradiction |].
  destruct Hin as [-> | Hin].
  - destruct rest as [| r rest'].
    + exists "", "". simpl. rewrite append_empty_r. reflexivity.
    + exists "", (sep ++ join sep (r :: rest')). reflexivity.
  - destruct rest as [| r rest']; [contradiction |].
    destruct (IH Hin) as (before & after & E).
    exists (q ++ sep ++ before), after.
    change (join sep (q :: r :: rest')) with (q ++ sep ++ join sep (r :: rest')).
    rewrite E, !append_assoc. reflexivity.
Qed.

Lemma contains_trans (text middle piece : string) :
  contains text middle -> contains middle piece -> contains text piece.
Proof.
  intros (b1 & a1 & E1) (b2 & a2 & E2). subst.
  exists (b1 ++ b2), (a2 ++ a1). rewrite !append_assoc. reflexivity.
Qed.

Lemma prompt_contains_context (query context : string) :
  contains (prompt query context) context.
Proof.
  apply contains_trans with (middle := "        " ++ context).
  - apply join_contains. simpl. auto 15.
  - exists "        ", "". rewrite append_empty_r. reflexivity.
Qed.

Lemma prompt_contains_query (query context : string) :
  contains (prompt query context) (dq ++ query ++ dq).
Proof.
  apply contains_trans
    with (middle := "        The user needs an outfit for: "
                    ++ dq ++ query ++ dq ++ ".").
  - apply join_contains. simpl. auto 15.
  - exists "        The user needs an outfit for: ", ".".
    rewrite !append_assoc. reflexivity.
Qed.

End ContextFacts.

(** X5.  The inventory context has as many lines as the catalog has
    products plus the line feeds inside their serialized fields; so never
    fewer lines than products. *)
Theorem inventory_context_line_count :
  forall (products : Catalog),
    List.length (JSString.lines (Serializer.inventoryContext products))
    = List.length products + list_sum (map Measures.lineFeeds products).
Proof.
  intros products. destruct products as [| p ps]; [reflexivity |].
  destruct (inventoryContext_nonempty p ps) as [rest E].
  unfold JSString.lines. rewrite E, <- E.
  unfold Serializer.inventoryContext, JSString.nl.
  rewrite length_splitOn.
  change (map Serializer.inventoryLine (p :: ps))
    with (Serializer.inventoryLine p :: map Serializer.inventoryLine ps).
  rewrite countUnit_join.
  change (Serializer.inventoryLine p :: map Serializer.inventoryLine ps)
    with (map Serializer.inventoryLine (p :: ps)).
  rewrite list_sum_lineFeeds, length_map.
  change (List.length (p :: ps)) with (S (List.length ps)). lia.
Qed.

(** X6.  The entry format does not escape its fields: a product whose
    identifier ends in what looks like the start of a name field has the
    same entry as a different product whose name begins with that text. *)
Theorem inventory_line_is_ambiguous :
  forall (id piece name brand gender description color : string)
         (price images : number),
    let p1 := mkProduct (id ++ ", Name: " ++ piece) name brand gender
                        price images description color in
    let p2 := mkProduct id (piece ++ ", Name: " ++ name) brand gender
                        price images description color in
    Serializer.inventoryLine p1 = Serializer.inventoryLine p2
    /\ ProductID p1 <> ProductID p2.
Proof.
  intros. subst p1 p2. unfold Serializer.inventoryLine. simpl. split.
  - repeat (first [rewrite append_assoc | progress simpl]). reflexivity.
  - intros E. apply (f_equal String.length) in E.
    rewrite !length_append in E. simpl in E. lia.
Qed.

(** X7.  The request built for a query carries the query as typed, between
    double quotes, and the entry of every catalog product; it asks the model
    ['gemini-2.5-flash'] for JSON. *)
Theorem request_carries_query_and_catalog :
  forall (products : Catalog) (query : string),
    let request := Serializer.makeRequest products query in
    Serializer.contains (Serializer.contents request)
      (JSString.dq ++ query ++ JSString.dq)
    /\ (forall p, In p products ->
          Serializer.contains (Serializer.contents request)
            (Serializer.inventoryLine p))
    /\ Serializer.model request = "gemini-2.5-flash"
    /\ Serializer.responseMimeType request = "application/json".
Proof.
  intros products query request. subst request. simpl.
  split; [apply prompt_contains_query |].
  split; [| split; reflexivity].
  intros p Hin.
  apply contains_trans with (middle := Serializer.inventoryContext products).
  - apply prompt_contains_context.
  - apply join_contains. apply in_map. exact Hin.
Qed.

(* ================================================================== *)
(** * Further properties of [handleStyleMe] and the page events *)
(* ================================================================== *)

Lemma not_blank_iff (s : string) :
  JSString.truthy (JSString.trim s) = true
  <-> JSString.allWhiteSpace s = false.
Proof.
  pose proof (blank_iff s) as H.
  destruct (JSString.truthy (JSString.trim s));
    destruct (JSString.allWhiteSpace s); intuition congruence.
Qed.

(** A query with a character that is not white space is not empty. *)
Lemma not_blank_not_empty (s : string) :
  JSString.allWhiteSpace s = false -> JSString.truthy s = true.
Proof. destruct s; simpl; congruence. Qed.

Section SessionFacts.

Import JSON Pipeline.

Variable products : Catalog.
Variable JSON_parse : string -> option JSValue.

Local Abbreviation step := (Pipeline.step products JSON_parse).
Local Abbreviation run := (Pipeline.run products JSON_parse).

(** What holds of the initial world and is kept by every event holds after
    every sequence of events. *)
Lemma run_invariant (P : World -> Prop) :
  (forall w e, P w -> P (step w e)) ->
  forall events w, P w -> P (run w events).
Proof.
  intros Hstep events. induction events as [| e rest IH]; intros w Hw.
  - exact Hw.
  - simpl. apply IH. apply Hstep. exact Hw.
Qed.

Lemma begin_cases (w : World) :
  (JSString.allWhiteSpace (query (app w)) = true
   /\ handleStyleMe_begin products w = w)
  \/ (JSString.allWhiteSpace (query (app w)) = false
      /\ handleStyleMe_begin products w
         = {| app := {| query := query (app w); loading := true;
                        recommendation := JNull; error := None |};
              sent := (sent w
                       ++ [Serializer.makeRequest products (query (app w))])%list;
              inflight := S (inflight w) |}).
Proof.
  destruct (JSString.allWhiteSpace (query (app w))) eqn:E.
  - left. split; [reflexivity |]. apply begin_blank. apply blank_iff. exact E.
  - right. split; [reflexivity |]. apply begin_nonblank.
    apply not_blank_iff. exact E.
Qed.

(** The state after the completion of a request: the error is the generic
    message or what it was, the recommendation a parsed response or what it
    was. *)
Lemma resume_cases (c : Completion) (st : AppState) :
  query (handleStyleMe_resume JSON_parse c st) = query st
  /\ loading (handleStyleMe_resume JSON_parse c st) = false
  /\ (error (handleStyleMe_resume JSON_parse c st) = error st
      \/ error (handleStyleMe_resume JSON_parse c st) = Some aiErrorMessage)
  /\ (recommendation (handleStyleMe_resume JSON_parse c st)
      = recommendation st
      \/ exists text,
           text <> ""
           /\ JSON_parse text
              = Some (recommendation (handleStyleMe_resume JSON_parse c st))).
Proof.
  unfold handleStyleMe_resume, afterAwait.
  destruct c as [| [t |]]; simpl; auto.
  destruct t as [| a t']; simpl; auto.
  destruct (JSON_parse (String a t')) as [data |] eqn:E; simpl; auto.
  repeat split; auto. right. exists (String a t'). split; [discriminate |].
  exact E.
Qed.

Lemma step_log (w : World) (e : Event) :
  Forall (Measures.builtFrom products) (sent w)
  /\ inflight w <= List.length (sent w) ->
  Forall (Measures.builtFrom products) (sent (step w e))
  /\ inflight (step w e) <= List.length (sent (step w e)).
Proof.
  intros [Hall Hle].
  assert (Hbegin :
            Forall (Measures.builtFrom products)
                   (sent (handleStyleMe_begin products w))
            /\ inflight (handleStyleMe_begin products w)
               <= List.length (sent (handleStyleMe_begin products w))).
  { destruct (begin_cases w) as [[_ ->] | [Hq ->]]; [auto |]. simpl. split.
    - apply Forall_app. split; [exact Hall |]. constructor; [| constructor].
      exists (query (app w)). split; [exact Hq | reflexivity].
    - rewrite length_app. simpl. lia. }
  destruct e as [v | | key | c]; simpl.
  - auto.
  - destruct (buttonDisabled (app w)); auto.
  - destruct (String.eqb key "Enter"); auto.
  - destruct (inflight w) as [| n] eqn:E; simpl; [rewrite E |]; split;
      auto; lia.
Qed.

Lemma step_error (w : World) (e : Event) :
  error (app w) = None \/ error (app w) = Some aiErrorMessage ->
  error (app (step w e)) = None
  \/ error (app (step w e)) = Some aiErrorMessage.
Proof.
  intros Hw.
  assert (Hbegin :
            error (app (handleStyleMe_begin products w)) = None
            \/ error (app (handleStyleMe_begin products w))
               = Some aiErrorMessage).
  { destruct (begin_cases w) as [[_ ->] | [_ ->]]; simpl; auto. }
  destruct e as [v | | key | c].
  - simpl. exact Hw.
  - simpl. destruct (buttonDisabled (app w)); auto.
  - simpl. destruct (String.eqb key "Enter"); auto.
  - unfold Pipeline.step. destruct (inflight w); [exact Hw |]. cbn [app].
    destruct (resume_cases c (app w)) as (_ & _ & [-> | ->] & _); auto.
Qed.


(** The Enter key keeps the requests single-flight when no request is
    outstanding. *)
Lemma step_singleFlight_idle (w : World) (e : Event) :
  singleFlight w ->
  negb (startsByKey e) || negb (loading (app w)) = true ->
  singleFlight (step w e).
Proof.
  intros Hw Hcond. destruct (startsByKey e) eqn:He.
  - simpl in Hcond. apply negb_true_iff in Hcond.
    destruct e as [v | | key | c]; simpl in He; try discriminate.
    simpl. rewrite He.
    destruct Hw as [(Hf & Hl & Hx) | (Hf & Hl & _)]; [| congruence].
    destruct (begin_cases w) as [[_ ->] | [_ ->]].
    + left. auto.
    + right. simpl. rewrite Hf. auto.
  - apply step_singleFlight; assumption.
Qed.

Lemma run_singleFlight_idle (events : list Event) :
  forall w,
    singleFlight w ->
    Measures.enterOnlyWhenIdle products JSON_parse w events = true ->
    singleFlight (run w events).
Proof.
  induction events as [| e rest IH]; intros w Hw Hcalm; simpl in *.
  - exact Hw.
  - apply andb_true_iff in Hcalm. destruct Hcalm as [He Hrest].
    apply IH; [apply step_singleFlight_idle; assumption | exact Hrest].
Qed.

Lemma initialWorld_singleFlight : singleFlight initialWorld.
Proof. left. repeat split. Qed.

End SessionFacts.

(** X8.  The Enter key in the input starts an invocation exactly when the
    query has a character that is not white space: then it clears the error
    and the recommendation, sets the busy flag and sends one request built
    from the query as typed; otherwise it changes nothing. *)
Theorem enter_sends_iff_not_blank :
  forall (products : Catalog) (JSON_parse : string -> option JSON.JSValue)
         (w : Pipeline.World),
    let q := Pipeline.query (Pipeline.app w) in
    let w' := Pipeline.step products JSON_parse w (Pipeline.KeyDown "Enter") in
    (w' = w <-> JSString.allWhiteSpace q = true)
    /\ (JSString.allWhiteSpace q = false ->
        Pipeline.sent w'
        = (Pipeline.sent w ++ [Serializer.makeRequest products q])%list
        /\ Pipeline.inflight w' = S (Pipeline.inflight w)
        /\ Pipeline.app w'
           = Pipeline.mkAppState q true JSON.JNull None).
Proof.
  intros products JSON_parse w q w'. subst q w'. simpl.
  destruct (begin_cases products w) as [[Hq ->] | [Hq ->]]; rewrite Hq.
  - split; [split; reflexivity | discriminate].
  - split.
    + split; [| discriminate]. intros E.
      apply (f_equal Pipeline.inflight) in E. simpl in E. lia.
    + intros _. repeat split.
Qed.

Lemma enter_sends_iff_not_blank_witness :
  Pipeline.inflight
    (Pipeline.step Samples.catalog JSON.parseFragment
       (Samples.typed " garden party ") (Pipeline.KeyDown "Enter")) = 1.
Proof.
  apply (enter_sends_iff_not_blank Samples.catalog JSON.parseFragment
           (Samples.typed " garden party ")).
  reflexivity.
Defined.

(** X9.  A click on the button is the Enter key gated by the busy flag:
    while [loading] is set it does nothing, otherwise it does what the Enter
    key does.  The [!query] part of [disabled] adds nothing to the guard of
    [handleStyleMe]. *)
Theorem click_is_gated_enter :
  forall (products : Catalog) (JSON_parse : string -> option JSON.JSValue)
         (w : Pipeline.World),
    Pipeline.step products JSON_parse w Pipeline.Click
    = if Pipeline.loading (Pipeline.app w) then w
      else Pipeline.step products JSON_parse w (Pipeline.KeyDown "Enter").
Proof.
  intros products JSON_parse w. simpl. unfold Pipeline.buttonDisabled.
  destruct (Pipeline.loading (Pipeline.app w)); simpl; [reflexivity |].
  destruct (JSString.truthy (Pipeline.query (Pipeline.app w))) eqn:E; simpl;
    [reflexivity |].
  symmetry. apply begin_blank.
  destruct (Pipeline.query (Pipeline.app w)); [reflexivity | discriminate].
Qed.

(** X10.  Whatever the user does and however the requests complete, every
    request ever sent was built from a query that was not blank, over the
    catalog, and no more requests are outstanding than were sent. *)
Theorem every_request_has_a_query :
  forall (products : Catalog) (JSON_parse : string -> option JSON.JSValue)
         (events : list Pipeline.Event),
    let w := Pipeline.run products JSON_parse Pipeline.initialWorld events in
    Forall (Measures.builtFrom products) (Pipeline.sent w)
    /\ Pipeline.inflight w <= List.length (Pipeline.sent w).
Proof.
  intros products JSON_parse events.
  apply (run_invariant products JSON_parse
           (fun w => Forall (Measures.builtFrom products) (Pipeline.sent w)
                     /\ Pipeline.inflight w <= List.length (Pipeline.sent w))).
  - intros w e. apply step_log.
  - simpl. split; [constructor | lia].
Qed.

(** X11.  The page has one failure message: after any sequence of events
    the error state is [null] or the "stylists are busy" message, and the
    banner shows exactly the error state. *)
Theorem only_one_error_message :
  forall (products : Catalog) (JSON_parse : string -> option JSON.JSValue)
         (events : list Pipeline.Event),
    let st := Pipeline.app
                (Pipeline.run products JSON_parse Pipeline.initialWorld events) in
    (Pipeline.error st = None
     \/ Pipeline.error st = Some Pipeline.aiErrorMessage)
    /\ View.errorBanner st = Pipeline.error st.
Proof.
  intros products JSON_parse events st.
  assert (H : Pipeline.error st = None
              \/ Pipeline.error st = Some Pipeline.aiErrorMessage).
  { subst st.
    apply (run_invariant products JSON_parse
             (fun w => Pipeline.error (Pipeline.app w) = None
                       \/ Pipeline.error (Pipeline.app w)
                          = Some Pipeline.aiErrorMessage)).
    - intros w e. apply step_error.
    - left. reflexivity. }
  split; [exact H |].
  unfold View.errorBanner. destruct H as [-> | ->]; reflexivity.
Qed.


(** X13.  In a session where the Enter key is pressed only while no request
    is outstanding, at most one request is in flight, the busy flag is set
    exactly while one is, the error and the recommendation are never both
    set, and while the request is outstanding the page shows the spinner on
    a disabled button, no error and no results. *)
Theorem calm_session_is_single_flight :
  forall (products : Catalog) (JSON_parse : string -> option JSON.JSValue)
         (events : list Pipeline.Event),
    Measures.enterOnlyWhenIdle products JSON_parse Pipeline.initialWorld events
    = true ->
    let w := Pipeline.run products JSON_parse Pipeline.initialWorld events in
    Pipeline.inflight w <= 1
    /\ Pipeline.exclusive (Pipeline.app w)
    /\ (Pipeline.loading (Pipeline.app w) = true <-> Pipeline.inflight w = 1)
    /\ (Pipeline.loading (Pipeline.app w) = true ->
        View.view products (Pipeline.app w)
        = Some (View.mkPageView true true None None)).
Proof.
  intros products JSON_parse events Hcalm w.
  pose proof (run_singleFlight_idle products JSON_parse events
                Pipeline.initialWorld initialWorld_singleFlight Hcalm) as Hw.
  fold w in Hw.
  destruct (singleFlight_bounds w Hw) as [Hle Hx].
  split; [exact Hle |]. split; [exact Hx |].
  destruct Hw as [(Hf & Hl & _) | (Hf & Hl & Herr & Hrec)].
  - split; [split; congruence | congruence].
  - split; [split; auto |]. intros _.
    unfold View.view, View.errorBanner, Pipeline.buttonDisabled.
    rewrite Hrec, Herr, Hl. reflexivity.
Qed.

Lemma calm_session_is_single_flight_witness :
  let w := Pipeline.run Samples.catalog JSON.parseFragment
             Pipeline.initialWorld Scenarios.calmSession in
  Pipeline.inflight w <= 1
  /\ Pipeline.exclusive (Pipeline.app w)
  /\ (Pipeline.loading (Pipeline.app w) = true <-> Pipeline.inflight w = 1)
  /\ (Pipeline.loading (Pipeline.app w) = true ->
      View.view Samples.catalog (Pipeline.app w)
      = Some (View.mkPageView true true None None)).
Proof.
  apply (calm_session_is_single_flight Samples.catalog JSON.parseFragment
           Scenarios.calmSession).
  reflexivity.
Defined.

(** X14.  Editing the query while a request is outstanding neither cancels
    the request nor changes what its completion does: the edit and the
    completion commute, so the answer for the old query is applied under the
    new one. *)
Theorem typing_commutes_with_completion :
  forall (products : Catalog) (JSON_parse : string -> option JSON.JSValue)
         (w : Pipeline.World) (v : string) (c : Pipeline.Completion),
    Pipeline.step products JSON_parse
      (Pipeline.step products JSON_parse w (Pipeline.Change v))
      (Pipeline.Settle c)
    = Pipeline.step products JSON_parse
        (Pipeline.step products JSON_parse w (Pipeline.Settle c))
        (Pipeline.Change v).
Proof.
  intros products JSON_parse w v c. unfold Pipeline.step.
  cbn [Pipeline.inflight Pipeline.app Pipeline.sent].
  destruct (Pipeline.inflight w) as [| n] eqn:E;
    cbn [Pipeline.inflight Pipeline.app Pipeline.sent];
    [rewrite E; reflexivity |].
  f_equal.
  unfold Pipeline.handleStyleMe_resume, Pipeline.afterAwait.
  destruct c as [| [t |]]; simpl; try reflexivity.
  destruct (JSString.truthy t); simpl; [| reflexivity].
  destruct (JSON_parse t); reflexivity.
Qed.

(** X15.  The completion of a request clears the busy flag also when other
    requests are still outstanding: the spinner stops and, the query not
    being empty, the button is enabled again while a request is pending. *)
Theorem completion_clears_busy_flag :
  forall (products : Catalog) (JSON_parse : string -> option JSON.JSValue)
         (w : Pipeline.World) (c : Pipeline.Completion) (n : nat),
    Pipeline.inflight w = S (S n) ->
    let w' := Pipeline.step products JSON_parse w (Pipeline.Settle c) in
    Pipeline.inflight w' = S n
    /\ Pipeline.loading (Pipeline.app w') = false
    /\ (JSString.truthy (Pipeline.query (Pipeline.app w)) = true ->
        Pipeline.buttonDisabled (Pipeline.app w') = false).
Proof.
  intros products JSON_parse w c n Hf w'. subst w'.
  unfold Pipeline.step. rewrite Hf. cbn [Pipeline.app Pipeline.inflight].
  destruct (resume_cases JSON_parse c (Pipeline.app w)) as (Hq & Hl & _).
  split; [reflexivity |]. split; [exact Hl |].
  intros Htruthy. unfold Pipeline.buttonDisabled. rewrite Hl, Hq, Htruthy.
  reflexivity.
Qed.

Lemma completion_clears_busy_flag_witness :
  let w' := Pipeline.step Samples.catalog JSON.parseFragment
              Scenarios.twoInFlight (Pipeline.Settle Pipeline.Rejects) in
  Pipeline.inflight w' = 1
  /\ Pipeline.loading (Pipeline.app w') = false
  /\ (JSString.truthy (Pipeline.query (Pipeline.app Scenarios.twoInFlight))
      = true ->
      Pipeline.buttonDisabled (Pipeline.app w') = false).
Proof.
  apply (completion_clears_busy_flag Samples.catalog JSON.parseFragment
           Scenarios.twoInFlight Pipeline.Rejects 0).
  reflexivity.
Defined.

(* ================================================================== *)
(** * What the page shows *)
(* ================================================================== *)

Section ViewFacts.

Import View.

Lemma startsWith_spec (s piece : string) :
  startsWith s piece = true <-> exists rest, s = piece ++ rest.
Proof.
  revert s. induction piece as [| a piece IH]; intros s.
  - split; [intros _; exists s; reflexivity |].
    intros _. destruct s; reflexivity.
  - destruct s as [| b s]; simpl.
    + split; [discriminate | intros [rest E]; discriminate].
    + rewrite andb_true_iff, IH. split.
      * intros [Hab [rest ->]]. apply Ascii.eqb_eq in Hab. subst.
        exists rest. reflexivity.
      * intros [rest E]. injection E as -> ->.
        split; [apply Ascii.eqb_refl | exists rest; reflexivity].
Qed.

Lemma includes_unfold (s piece : string) :
  includes s piece
  = startsWith s piece
    || match s with
       | EmptyString => false
       | String _ s' => includes s' piece
       end.
Proof. destruct s; reflexivity. Qed.

(** [includes] finds a piece exactly when the piece occurs in the text. *)
Lemma includes_spec (s piece : string) :
  includes s piece = true <-> Serializer.contains s piece.
Proof.
  unfold Serializer.contains. split.
  - induction s as [| c s IH]; rewrite includes_unfold, orb_true_iff.
    + intros [H | H]; [| discriminate].
      apply startsWith_spec in H. destruct H as [rest E].
      exists "", rest. exact E.
    + intros [H | H].
      * apply startsWith_spec in H. destruct H as [rest E].
        exists "", rest. exact E.
      * destruct (IH H) as (before & after & ->).
        exists (String c before), after. reflexivity.
  - intros (before & after & ->).
    induction before as [| c before IH]; rewrite includes_unfold.
    + apply orb_true_iff. left. apply startsWith_spec.
      exists after. reflexivity.
    + simpl append. cbv iota. rewrite IH. apply orb_true_r.
Qed.

Lemma toLowerCase_app (a b : string) :
  toLowerCase (a ++ b) = toLowerCase a ++ toLowerCase b.
Proof. induction a as [| c a IH]; simpl; congruence. Qed.

(** The page for a state whose recommendation has the structure of
    [RecommendationIds]. *)
Lemma view_of_typed (products : Catalog) (st : Pipeline.AppState)
  (r : RecommendationIds) :
  JSON.readRecommendationIds (Pipeline.recommendation st) = Some r ->
  view products st
  = Some (mkPageView (Pipeline.buttonDisabled st) (Pipeline.loading st)
            (errorBanner st) (Some (resultsSection products r))).
Proof.
  intros Hread. unfold view.
  destruct (Pipeline.recommendation st); try discriminate.
  rewrite Hread. reflexivity.
Qed.

End ViewFacts.

(** X16.  A palette colour whose name contains "gold" in any mix of upper
    and lower case is painted ['#FFD700']; a colour whose lower-cased name
    does not contain "gold" is painted with its own string. *)
Theorem gold_swatch_rule :
  (forall before gold after,
      View.toLowerCase gold = "gold" ->
      View.swatchColor (before ++ gold ++ after) = "#FFD700")
  /\ (forall color,
        ~ Serializer.contains (View.toLowerCase color) "gold" ->
        View.swatchColor color = color).
Proof.
  split.
  - intros before gold after Hgold. unfold View.swatchColor.
    replace (View.includes (View.toLowerCase (before ++ gold ++ after)) "gold")
      with true; [reflexivity |].
    symmetry. apply includes_spec.
    rewrite !toLowerCase_app, Hgold.
    exists (View.toLowerCase before), (View.toLowerCase after). reflexivity.
  - intros color Hnot. unfold View.swatchColor.
    destruct (View.includes (View.toLowerCase color) "gold") eqn:E;
      [| reflexivity].
    exfalso. apply Hnot. apply includes_spec. exact E.
Qed.

Lemma gold_swatch_rule_witness :
  View.swatchColor ("Rose " ++ "GoLD" ++ " trim") = "#FFD700"
  /\ View.swatchColor "navy" = "navy".
Proof.
  destruct gold_swatch_rule as [Hgold Hother]. split.
  - apply Hgold. reflexivity.
  - apply Hother. intros H. apply includes_spec in H. discriminate.
Defined.

(** X17.  From the query to the page.  For a query that is not blank and a
    response text that parses to a value with the structure of
    [RecommendationIds], the completed invocation shows the results section
    of that recommendation over the catalog, no error banner, no spinner,
    and the button enabled again. *)
Theorem page_after_answer :
  forall (products : Catalog) (JSON_parse : string -> option JSON.JSValue)
         (w : Pipeline.World) (text : string) (v : JSON.JSValue)
         (r : RecommendationIds),
    JSString.allWhiteSpace (Pipeline.query (Pipeline.app w)) = false ->
    text <> "" ->
    JSON_parse text = Some v ->
    JSON.readRecommendationIds v = Some r ->
    View.view products
      (Pipeline.app (Pipeline.invoke products JSON_parse
                       (Pipeline.Resolves (Some text)) w))
    = Some (View.mkPageView false false None
              (Some (View.resultsSection products r))).
Proof.
  intros products JSON_parse w text v r Hq Htext Hparse Hread.
  assert (Hst : Pipeline.app (Pipeline.invoke products JSON_parse
                                (Pipeline.Resolves (Some text)) w)
                = Pipeline.mkAppState (Pipeline.query (Pipeline.app w))
                                      false v None).
  { rewrite (invoke_nonblank products JSON_parse _ w)
      by (apply not_blank_iff; exact Hq).
    cbn [Pipeline.app].
    unfold Pipeline.handleStyleMe_resume, Pipeline.afterAwait.
    destruct text as [| a t]; [contradiction |].
    cbn [JSString.truthy]. rewrite Hparse. reflexivity. }
  rewrite Hst.
  rewrite (view_of_typed products
             (Pipeline.mkAppState (Pipeline.query (Pipeline.app w))
                                  false v None) r Hread).
  unfold View.errorBanner, Pipeline.buttonDisabled. simpl.
  rewrite (not_blank_not_empty _ Hq). reflexivity.
Qed.

Lemma page_after_answer_witness :
  View.view Samples.catalog
    (Pipeline.app (Pipeline.invoke Samples.catalog JSON.parseFragment
                     (Pipeline.Resolves (Some Samples.goodText))
                     (Samples.typed "garden party")))
  = Some (View.mkPageView false false None
            (Some (View.resultsSection Samples.catalog Samples.exampleIds))).
Proof.
  apply (page_after_answer Samples.catalog JSON.parseFragment
           (Samples.typed "garden party") Samples.goodText Samples.goodValue
           Samples.exampleIds).
  - reflexivity.
  - discriminate.
  - reflexivity.
  - reflexivity.
Defined.

(** X18.  A response whose text is the JSON [null] ends like a response
    with no text: the invocation stores [null], and the page shows neither
    results nor an error. *)
Theorem null_response_shows_nothing :
  forall (products : Catalog) (JSON_parse : string -> option JSON.JSValue)
         (w : Pipeline.World) (text : string),
    JSString.allWhiteSpace (Pipeline.query (Pipeline.app w)) = false ->
    JSON_parse text = Some JSON.JNull ->
    Pipeline.invoke products JSON_parse (Pipeline.Resolves (Some text)) w
    = Pipeline.invoke products JSON_parse (Pipeline.Resolves None) w
    /\ View.view products
         (Pipeline.app (Pipeline.invoke products JSON_parse
                          (Pipeline.Resolves (Some text)) w))
       = Some (View.mkPageView false false None None).
Proof.
  intros products JSON_parse w text Hq Hparse.
  rewrite !(invoke_nonblank products JSON_parse _ w)
    by (apply not_blank_iff; exact Hq).
  unfold Pipeline.handleStyleMe_resume, Pipeline.afterAwait.
  unfold View.view, View.errorBanner, Pipeline.buttonDisabled.
  destruct text as [| a t]; simpl; rewrite ?Hparse; simpl;
    rewrite (not_blank_not_empty _ Hq); split; reflexivity.
Qed.

Lemma null_response_shows_nothing_witness :
  View.view Samples.catalog
    (Pipeline.app (Pipeline.invoke Samples.catalog JSON.parseFragment
                     (Pipeline.Resolves (Some "null"))
                     (Samples.typed "garden party")))
  = Some (View.mkPageView false false None None).
Proof.
  apply (null_response_shows_nothing Samples.catalog JSON.parseFragment
           (Samples.typed "garden party") "null").
  - reflexivity.
  - reflexivity.
Defined.
